(** * RobotFashion: the dataset accessor of [robotfashion/data/robotfashion.py]

    A shallow embedding of the module: the category tables, the XML
    annotation readers, and the [RobotFashion] dataset class (construction,
    [__len__], [__getitem__]), followed by the properties proved about them.

    Python values are modelled as follows.
    - [str] is [string], read as the UTF-8 bytes of the text (byte-wise
      lexicographic order is code-point order, which is what [sorted] uses).
    - [int] is [Z]; [float] is IEEE 754 binary64, a [spec_float] of the
      standard library's executable specification, with the rounding of every
      conversion and product written out; a single-precision tensor entry is a
      binary32 [spec_float].
    - a raised exception is the [Raise] case of [result].
    - which strings the built-in [int] reads is left to an [Interpreter], over
      which the properties are proved; the examples run with one that reads
      ASCII decimal literals.
    - the file system, the XML parser and the image decoder are the fields of
      a [World] record. *)

From Stdlib Require Import ZArith QArith Qround Qabs List String Ascii Bool Lia.
From Stdlib Require Import Permutation Sorted Orders Mergesort.
From Stdlib Require Import SpecFloat.
Import ListNotations.

Local Open Scope string_scope.
Local Open Scope Z_scope.

(** ** Python: exceptions, sequences, [int()], [os.path.join], [sorted] *)

Module Py.

Inductive exn : Type :=
| ValueError (msg : string)
| KeyError (key : option string)
| IndexError
| TypeError
| OverflowError
| NotImplementedError (msg : string)
| Exception (msg : string)
| OSError (path : string).

Inductive result (A : Type) : Type :=
| Ok (a : A)
| Raise (e : exn).

Arguments Ok {A} a.
Arguments Raise {A} e.

Definition bind {A B : Type} (r : result A) (k : A -> result B) : result B :=
  match r with
  | Ok a => k a
  | Raise e => Raise e
  end.

Definition is_ok {A : Type} (r : result A) : bool :=
  match r with
  | Ok _ => true
  | Raise _ => false
  end.

Fixpoint mapM {A B : Type} (f : A -> result B) (l : list A) : result (list B) :=
  match l with
  | [] => Ok []
  | a :: r => bind (f a) (fun b => bind (mapM f r) (fun bs => Ok (b :: bs)))
  end.

(** [l[i]] on a list: a negative index counts from the end, anything outside
    [-len, len) raises [IndexError]. *)
Definition getitem {A : Type} (l : list A) (i : Z) : result A :=
  let n := Z.of_nat (List.length l) in
  let j := if i <? 0 then i + n else i in
  if (0 <=? j) && (j <? n) then
    match nth_error l (Z.to_nat j) with
    | Some a => Ok a
    | None => Raise IndexError
    end
  else Raise IndexError.

(** A dict given by its literal: the entries in source order. The literals of
    this module repeat no key, so the first match is the entry. *)
Fixpoint dict_get {K V : Type} (eqb : K -> K -> bool) (d : list (K * V)) (k : K)
  : option V :=
  match d with
  | [] => None
  | (k', v) :: r => if eqb k' k then Some v else dict_get eqb r k
  end.

(** [x in l] for a list of strings. *)
Fixpoint str_in (x : string) (l : list string) : bool :=
  match l with
  | [] => false
  | y :: r => String.eqb y x || str_in x r
  end.

(** *** [int(x)] on the text of an XML element

    Which strings the built-in [int] reads depends on the interpreter: besides
    ASCII literals it takes Unicode decimal digits and white space, and recent
    versions refuse literals above a configurable number of digits. It is a
    parameter of the development: an interpreter says, for each string,
    whether [int] returns a value or which of its two [ValueError]s it
    raises. *)

Inductive int_outcome : Type :=
| IntValue (z : Z)
| IntInvalid (repr : string)
| IntTooLong (detail : string).

Class Interpreter : Type := { int_of_text : string -> int_outcome }.

(** [int(x)] where [x] is the [text] of an XML element: [None] raises
    [TypeError], a string that is no integer literal raises [ValueError]. *)
Definition int `{Interpreter} (x : option string) : result Z :=
  match x with
  | None => Raise TypeError
  | Some s =>
      match int_of_text s with
      | IntValue z => Ok z
      | IntInvalid r =>
          Raise (ValueError ("invalid literal for int() with base 10: " ++ r))
      | IntTooLong d =>
          Raise (ValueError ("Exceeds the limit (" ++ d))
      end
  end.

(** *** ASCII decimal literals

    The reading every interpreter gives a plain literal: leading and trailing
    ASCII white space is dropped, then an optional sign, then decimal digits,
    where a single underscore may stand between two digits. It is the
    interpreter the examples run with. *)

Definition is_space (c : ascii) : bool :=
  let n := Z.of_N (N_of_ascii c) in
  ((9 <=? n) && (n <=? 13)) || ((28 <=? n) && (n <=? 32)).

Definition digit_of (c : ascii) : option Z :=
  let n := Z.of_N (N_of_ascii c) in
  if (48 <=? n) && (n <=? 57) then Some (n - 48) else None.

Fixpoint lstrip (l : list ascii) : list ascii :=
  match l with
  | c :: r => if is_space c then lstrip r else l
  | [] => []
  end.

Definition strip (l : list ascii) : list ascii :=
  rev (lstrip (rev (lstrip l))).

Fixpoint digits_acc (acc : Z) (after_digit : bool) (l : list ascii) : option Z :=
  match l with
  | [] => if after_digit then Some acc else None
  | c :: r =>
      match digit_of c with
      | Some d => digits_acc (10 * acc + d) true r
      | None =>
          if Ascii.eqb c "_" && after_digit then digits_acc acc false r else None
      end
  end.

Definition int_of_chars (l : list ascii) : option Z :=
  match strip l with
  | "-"%char :: r => option_map Z.opp (digits_acc 0 false r)
  | "+"%char :: r => digits_acc 0 false r
  | r => digits_acc 0 false r
  end.

Definition int_of_str (s : string) : option Z :=
  int_of_chars (list_ascii_of_string s).

(** *** [os.path.join(a, b)] (posixpath) *)

Definition startswith_slash (s : string) : bool :=
  match s with
  | String c _ => Ascii.eqb c "/"
  | EmptyString => false
  end.

Fixpoint endswith_slash (s : string) : bool :=
  match s with
  | EmptyString => false
  | String c EmptyString => Ascii.eqb c "/"
  | String _ r => endswith_slash r
  end.

Definition os_path_join (a b : string) : string :=
  if startswith_slash b then b
  else if String.eqb a "" || endswith_slash a then a ++ b
  else a ++ "/" ++ b.

(** *** [sorted(l)] on strings: a stable merge sort for [<=] on [str] *)

Module StrOrder <: TotalLeBool.
Definition t := string.
Definition leb := String.leb.
Definition leb_total : forall a b, leb a b = true \/ leb b a = true := String.leb_total.
End StrOrder.

Module StrSort := Sort StrOrder.

Definition sorted (l : list string) : list string := StrSort.sort l.

End Py.

Import Py.

Notation "x <- c ;; k" := (bind c (fun x => k))
  (at level 61, c at next level, right associativity).

(** ** Floating point: binary64 ([float], numpy's default) and binary32
    ([torch.float32]) *)

Module Float.

Definition prec64 : Z := 53.
Definition emax64 : Z := 1024.
Definition prec32 : Z := 24.
Definition emax32 : Z := 128.

(** [float(z)] for an integer: the nearest binary64 (ties to even);
    [OverflowError] when that is no finite number. *)
Definition f64_of_int (z : Z) : result spec_float :=
  match binary_normalize prec64 emax64 z 0 false with
  | S754_infinity _ => Raise OverflowError
  | x => Ok x
  end.

(** [x.float()]: binary64 to the nearest binary32 (ties to even, overflow to
    an infinity). *)
Definition f32_of_f64 (x : spec_float) : spec_float :=
  match x with
  | S754_finite s m e => binary_round prec32 emax32 s m e
  | _ => x
  end.

(** [int(x)] for a float: truncation toward zero. *)
Definition int_of_f64 (x : spec_float) : result Z :=
  match x with
  | S754_nan => Raise (ValueError "cannot convert float NaN to integer")
  | S754_infinity _ => Raise OverflowError
  | S754_zero _ => Ok 0
  | S754_finite s m e => Ok (cond_Zopp s (Z.shiftl (Zpos m) e))
  end.

(** The real number a float stands for (0 for an infinity or a NaN). *)
Definition SF2Q (x : spec_float) : Q :=
  match x with
  | S754_finite s m e =>
      match e with
      | Zneg k => Qmake (cond_Zopp s (Zpos m)) (2 ^ k)%positive
      | _ => inject_Z (cond_Zopp s (Zpos m * 2 ^ e))
      end
  | _ => 0%Q
  end.

Definition is_finite (x : spec_float) : bool :=
  match x with
  | S754_finite _ _ _ | S754_zero _ => true
  | _ => false
  end.

Definition zero64 : spec_float := S754_zero false.
Definition one64 : spec_float := S754_finite false (2 ^ 52)%positive (-52).
Definition half64 : spec_float := S754_finite false (2 ^ 52)%positive (-53).

End Float.

Import Float.

(** ** Numbers a caller can pass as [subset_ratio] *)

Inductive pynum : Type :=
| PyInt (z : Z)
| PyFloat (x : spec_float).

(** [r <= 0] *)
Definition num_le_zero (r : pynum) : bool :=
  match r with
  | PyInt z => z <=? 0
  | PyFloat x => SFleb x zero64
  end.

(** [r > 1] *)
Definition num_gt_one (r : pynum) : bool :=
  match r with
  | PyInt z => 1 <? z
  | PyFloat x => SFltb one64 x
  end.

(** [r * n] for an [int] n: an integer product, or the binary64 product with
    [float(n)]. *)
Definition num_mul_int (r : pynum) (n : Z) : result pynum :=
  match r with
  | PyInt z => Ok (PyInt (z * n))
  | PyFloat x => y <- f64_of_int n ;; Ok (PyFloat (SFmul prec64 emax64 x y))
  end.

(** [int(v)] *)
Definition int_of_num (v : pynum) : result Z :=
  match v with
  | PyInt z => Ok z
  | PyFloat x => int_of_f64 x
  end.

(** The value of a number as a rational. *)
Definition num2Q (r : pynum) : Q :=
  match r with
  | PyInt z => inject_Z z
  | PyFloat x => SF2Q x
  end.

(** ** numpy arrays and torch tensors, as far as [load_label] uses them *)

Module Np.

(** A float64 array: its shape and its entries in row-major order. *)
Record ndarray : Type := { shape : list nat; data : list spec_float }.

(** A tensor: its shape and its entries; the entry type stands for the dtype
    ([spec_float] read as binary32 for [float32], [Z] for [int64]). *)
Record tensor (A : Type) : Type := { t_shape : list nat; t_data : list A }.

Arguments t_shape {A} t.
Arguments t_data {A} t.

(** [np.zeros(shape)] *)
Definition zeros (sh : list nat) : ndarray :=
  {| shape := sh; data := repeat zero64 (fold_right Nat.mul 1%nat sh) |}.

(** [a[0, :] = l] for a list of ints: the list is converted to float64 and
    written over row 0; a list of one entry is broadcast over the row. *)
Definition assign_row0 (a : ndarray) (l : list Z) : result ndarray :=
  match shape a with
  | [S _; c] =>
      vals <- mapM f64_of_int l ;;
      if Nat.eqb (List.length vals) c then
        Ok {| shape := shape a; data := vals ++ skipn c (data a) |}
      else
        match vals with
        | [v] => Ok {| shape := shape a; data := repeat v c ++ skipn c (data a) |}
        | _ => Raise (ValueError "could not broadcast input array")
        end
  | _ => Raise IndexError
  end.

(** [a[0] = z] for a one-dimensional array and an int. *)
Definition assign_item0 (a : ndarray) (z : Z) : result ndarray :=
  match shape a with
  | [S _] => v <- f64_of_int z ;; Ok {| shape := shape a; data := v :: tl (data a) |}
  | _ => Raise IndexError
  end.

(** The int64 a float64 is cast to: truncation toward zero, and the smallest
    int64 for a value that has none (a NaN, an infinity, out of range). *)
Definition long_of_f64 (x : spec_float) : Z :=
  match x with
  | S754_finite s m e =>
      let t := cond_Zopp s (Z.shiftl (Zpos m) e) in
      if (- 2 ^ 63 <=? t) && (t <? 2 ^ 63) then t else - 2 ^ 63
  | S754_zero _ => 0
  | _ => - 2 ^ 63
  end.

(** [t.tensor(a).float()] *)
Definition tensor_float (a : ndarray) : tensor spec_float :=
  {| t_shape := shape a; t_data := map f32_of_f64 (data a) |}.

(** [t.tensor(a).long()] *)
Definition tensor_long (a : ndarray) : tensor Z :=
  {| t_shape := shape a; t_data := map long_of_f64 (data a) |}.

End Np.

Import Np.

(** ** The category enumeration [DF2] and the two tables *)

Inductive DF2 : Type :=
| short_sleeve_top
| long_sleeve_top
| short_sleeve_outwear
| long_sleeve_outwear
| vest
| sling
| shorts
| trousers
| skirt
| short_sleeve_dress
| long_sleeve_dress
| vest_dress
| sling_dress.

(** [c.value] *)
Definition value (c : DF2) : Z :=
  match c with
  | short_sleeve_top => 1
  | long_sleeve_top => 2
  | short_sleeve_outwear => 3
  | long_sleeve_outwear => 4
  | vest => 5
  | sling => 6
  | shorts => 7
  | trousers => 8
  | skirt => 9
  | short_sleeve_dress => 10
  | long_sleeve_dress => 11
  | vest_dress => 12
  | sling_dress => 13
  end.

Definition DF2_eqb (a b : DF2) : bool := value a =? value b.

Definition all_DF2 : list DF2 :=
  [short_sleeve_top; long_sleeve_top; short_sleeve_outwear; long_sleeve_outwear;
   vest; sling; shorts; trousers; skirt; short_sleeve_dress; long_sleeve_dress;
   vest_dress; sling_dress].

Definition df2_enum_to_name : list (DF2 * string) :=
  [ (short_sleeve_top, "short_sleeve_top");
    (long_sleeve_top, "long_sleeve_top");
    (short_sleeve_outwear, "short_sleeve_outwear");
    (long_sleeve_outwear, "long_sleeve_outwear");
    (vest, "vest");
    (sling, "sling");
    (shorts, "shorts");
    (trousers, "trousers");
    (skirt, "skirt");
    (short_sleeve_dress, "short_sleeve_dress");
    (long_sleeve_dress, "long_sleeve_dress");
    (vest_dress, "vest_dress");
    (sling_dress, "sling_dress") ].

Definition name_to_df2_enum : list (string * DF2) :=
  [ ("short_sleeve_top", short_sleeve_top);
    ("long_sleeve_top", long_sleeve_top);
    ("short_sleeve_outwear", short_sleeve_outwear);
    ("long_sleeve_outwear", long_sleeve_outwear);
    ("vest", vest);
    ("sling", sling);
    ("shorts", shorts);
    ("trousers", trousers);
    ("skirt", skirt);
    ("short_sleeve_dress", short_sleeve_dress);
    ("long_sleeve_dres", long_sleeve_dress);
    ("vest_dress", vest_dress);
    ("sling_dress", sling_dress) ].

(** [df2_enum_to_name[c]] *)
Definition enum_to_name (c : DF2) : result string :=
  match dict_get DF2_eqb df2_enum_to_name c with
  | Some s => Ok s
  | None => Raise (KeyError None)
  end.

(** [name_to_df2_enum[key]], where [key] is an element's [text] ([None] when
    the element has none). *)
Definition name_to_enum (key : option string) : result DF2 :=
  match key with
  | Some s =>
      match dict_get String.eqb name_to_df2_enum s with
      | Some c => Ok c
      | None => Raise (KeyError key)
      end
  | None => Raise (KeyError None)
  end.

(** ** XML elements ([xml.etree.ElementTree.Element]) *)

#[warnings="-register-all"]
Inductive element : Type :=
| Element (tag : string) (text : option string) (children : list element).

Definition tag (e : element) : string :=
  match e with Element t _ _ => t end.

Definition text (e : element) : option string :=
  match e with Element _ x _ => x end.

Definition children (e : element) : list element :=
  match e with Element _ _ cs => cs end.

(** ** The annotation readers *)

(** The four locals of [extract_bb]. *)
Record bb_state : Type := { xmin : Z; xmax : Z; ymin : Z; ymax : Z }.

(** One round of the [for child in xml_obj] loop: four independent [if]s. *)
Definition extract_bb_step `{Interpreter} (st : bb_state) (child : element) : result bb_state :=
  x0 <- (if (tag child =? "xmin")%string then int (text child) else Ok (xmin st)) ;;
  x1 <- (if (tag child =? "xmax")%string then int (text child) else Ok (xmax st)) ;;
  y0 <- (if (tag child =? "ymin")%string then int (text child) else Ok (ymin st)) ;;
  y1 <- (if (tag child =? "ymax")%string then int (text child) else Ok (ymax st)) ;;
  Ok {| xmin := x0; xmax := x1; ymin := y0; ymax := y1 |}.

Fixpoint extract_bb_loop `{Interpreter} (cs : list element) (st : bb_state) : result bb_state :=
  match cs with
  | [] => Ok st
  | child :: rest => st' <- extract_bb_step st child ;; extract_bb_loop rest st'
  end.

Definition extract_bb `{Interpreter} (xml_obj : element) : result (list Z) :=
  st <- extract_bb_loop (children xml_obj)
          {| xmin := -1; xmax := -1; ymin := -1; ymax := -1 |} ;;
  if (xmin st <? 0) || (xmax st <? 0) || (ymin st <? 0) || (ymax st <? 0)
  then Raise (ValueError "no xmin,xmax,ymin,ymax in xml")
  else Ok [xmin st; xmax st; ymin st; ymax st].

(** The inner loop of [get_bbox_from_xml]: the first grandchild tagged
    [bndbox], if any. *)
Fixpoint first_bndbox (grandchildren : list element) : option element :=
  match grandchildren with
  | [] => None
  | g :: rest => if (tag g =? "bndbox")%string then Some g else first_bndbox rest
  end.

(** The outer loop of [get_bbox_from_xml] over the children of the root. *)
Fixpoint get_bbox_loop `{Interpreter} (cs : list element) : result (list Z) :=
  match cs with
  | [] => Raise (ValueError "no bounding box in xml")
  | child :: rest =>
      if (tag child =? "object")%string then
        match first_bndbox (children child) with
        | Some grandchild => extract_bb grandchild
        | None => get_bbox_loop rest
        end
      else get_bbox_loop rest
  end.

(** The loop of [get_class_from_xml] over the children of the root. *)
Fixpoint get_class_loop (cs : list element) : result Z :=
  match cs with
  | [] => Raise (ValueError "no name in xml")
  | child :: rest =>
      if (tag child =? "object")%string then
        clazz <- getitem (children child) 0 ;;
        c <- name_to_enum (text clazz) ;;
        Ok (value c)
      else get_class_loop rest
  end.

(** ** The outside world: directories, XML files, image files *)

Record World (Image : Type) : Type := {
  listdir : string -> result (list string);
  isfile : string -> bool;
  ET_parse : string -> result element;
  Image_open : string -> result Image
}.

Arguments listdir {Image} w path.
Arguments isfile {Image} w path.
Arguments ET_parse {Image} w path.
Arguments Image_open {Image} w path.

(** The dict [load_label] returns. *)
Record target : Type := { boxes : tensor spec_float; labels : tensor Z }.

(** ** Class constants *)

Definition train_mode : string := "train".
Definition val_mode : string := "val".
Definition test_mode : string := "test".
Definition modes : list string := [train_mode; val_mode; test_mode].

Definition get_dataset_name : string := "robotfashion".

Definition get_data_folder_name : string := get_dataset_name ++ "_data_folder".

Definition get_download_links : list (string * string * string * Z) :=
  [ ("1ezwR5_7OHhqjMR2D9ZMZqpq8u8xQ2MoG",
     "robotfashion_dataset.zip",
     "5a66924dbe44eed9bc0cdf52a206470db2fd9421a5745ab17b18588952c14ba4",
     1050691281) ].

Definition get_folders : list (string * string) :=
  [ ("train", "369ba5f28b246d2903b8f686b18d4b89b668fa484c9baef55c1c8bc5b6f2a45e");
    ("val", "369ba5f28b246d2903b8f686b18d4b89b668fa484c9baef55c1c8bc5b6f2a45e");
    ("test", "369ba5f28b246d2903b8f686b18d4b89b668fa484c9baef55c1c8bc5b6f2a45e") ].

(** ** The class [RobotFashion] *)

(** The attributes of an instance. [root] and [transform] are set by
    [VisionDataset.__init__]. *)
Record RobotFashion (Image : Type) : Type := {
  root : string;
  transform : option (Image -> result Image);
  subset_ratio : pynum;
  mode : string;
  image_paths : list string;
  label_paths : list string
}.

Arguments root {Image} r.
Arguments transform {Image} r.
Arguments subset_ratio {Image} r.
Arguments mode {Image} r.
Arguments image_paths {Image} r.
Arguments label_paths {Image} r.

Definition get_class_from_xml {Image : Type} (w : World Image) (xml_path : string)
  : result Z :=
  root <- ET_parse w xml_path ;;
  get_class_loop (children root).

Definition get_bbox_from_xml `{Interpreter} {Image : Type} (w : World Image) (xml_path : string)
  : result (list Z) :=
  root <- ET_parse w xml_path ;;
  get_bbox_loop (children root).

Definition _get_root_data_folder (root : string) : string :=
  os_path_join root get_data_folder_name.

(** The file names of [dir] that are files, in sorted order, each joined to
    [dir]: the list comprehension of [load_data]. *)
Definition sorted_files {Image : Type} (w : World Image) (dir : string)
  : result (list string) :=
  names <- listdir w dir ;;
  Ok (map (os_path_join dir)
        (filter (fun f => isfile w (os_path_join dir f)) (sorted names))).

Definition load_data {Image : Type} (w : World Image) (data_dir : string)
  : result (list string * list string) :=
  let image_dir := os_path_join data_dir "images" in
  let annos_dir := os_path_join data_dir "annotations" in
  image_paths <- sorted_files w image_dir ;;
  label_paths <- sorted_files w annos_dir ;;
  if negb (Nat.eqb (List.length image_paths) (List.length label_paths))
  then Raise (ValueError "length of images and labels doesn't match")
  else Ok (image_paths, label_paths).

Definition load_train_data {Image : Type} (w : World Image) (root : string)
  : result (list string * list string) :=
  load_data w (os_path_join (_get_root_data_folder root) "train").

Definition load_val_data {Image : Type} (w : World Image) (root : string)
  : result (list string * list string) :=
  load_data w (os_path_join (_get_root_data_folder root) "validation").

Definition load_test_data {Image : Type} (w : World Image) (root : string)
  : result (list string * list string) :=
  Raise (NotImplementedError "labels of test data are not published").

Definition load_image {Image : Type} (w : World Image) (image_path : string)
  : result Image :=
  Image_open w image_path.

Definition load_label `{Interpreter} {Image : Type} (w : World Image) (label_path : string)
  : result target :=
  let boxes0 := zeros [1%nat; 4%nat] in
  let labels0 := zeros [1%nat] in
  bbox <- get_bbox_from_xml w label_path ;;
  boxes1 <- assign_row0 boxes0 bbox ;;
  clazz <- get_class_from_xml w label_path ;;
  labels1 <- assign_item0 labels0 clazz ;;
  Ok {| boxes := tensor_float boxes1; labels := tensor_long labels1 |}.

Definition __getitem__ `{Interpreter} {Image : Type} (w : World Image) (self : RobotFashion Image)
  (index : Z) : result (Image * target) :=
  image_path <- getitem (image_paths self) index ;;
  image <- load_image w image_path ;;
  label_path <- getitem (label_paths self) index ;;
  label <- load_label w label_path ;;
  image' <- match transform self with
            | Some f => f image
            | None => Ok image
            end ;;
  Ok (image', label).

Definition __len__ {Image : Type} (self : RobotFashion Image) : result Z :=
  let n := Z.of_nat (List.length (image_paths self)) in
  v <- num_mul_int (subset_ratio self) n ;;
  int_of_num v.

Section Init.

Context {Image : Type}.

(** [robotfashion/data/util.py] is not part of the sources read here: its two
    functions are parameters, the second one returning the world it leaves
    behind. So are [os.path.expanduser], which [VisionDataset.__init__] applies
    to the root it is given, and the text an f-string gives a number. *)
Variable has_correct_folder_structure :
  World Image -> string -> list (string * string) -> string -> bool.
Variable maybe_download_and_unzip_data :
  World Image -> string -> list (string * string * string * Z) -> result (World Image).
Variable expanduser : string -> string.
Variable str_of_num : pynum -> string.

(** The integrity check and the download at the head of [__init__]: the
    world the rest of the constructor runs in. *)
Definition ensure_data (w : World Image) (root : string) (download_if_missing : bool)
  : result (World Image) :=
  if negb (has_correct_folder_structure w (_get_root_data_folder root)
             get_folders get_dataset_name)
  then
    if negb download_if_missing
    then Raise (ValueError ("cannot find (valid) " ++ get_dataset_name ++ " data."
                            ++ " Set download_if_missing=True to download dataset"))
    else
      w' <- maybe_download_and_unzip_data w (_get_root_data_folder root)
              get_download_links ;;
      if negb (has_correct_folder_structure w' (_get_root_data_folder root)
                 get_folders get_dataset_name)
      then Raise (Exception "Downloading and/or unzipping data failed")
      else Ok w'
  else Ok w.

Definition __init__ (w : World Image) (working_path : string) (mode : string)
  (download_if_missing : bool) (subset_ratio : pynum)
  (transform : option (Image -> result Image))
  : result (World Image * RobotFashion Image) :=
  let root := expanduser working_path in
  w1 <- ensure_data w root download_if_missing ;;
  if negb (str_in mode modes)
  then Raise (ValueError ("mode " ++ mode
                          ++ " should be one of ['train', 'val', 'test']"))
  else if num_le_zero subset_ratio || num_gt_one subset_ratio
  then Raise (ValueError ("subset ratio " ++ str_of_num subset_ratio
                          ++ " needs to be in (0, 1]"))
  else
    paths <- (if (mode =? train_mode)%string then load_train_data w1 root
              else if (mode =? val_mode)%string then load_val_data w1 root
              else load_test_data w1 root) ;;
    Ok (w1, {| root := root;
               transform := transform;
               subset_ratio := subset_ratio;
               mode := mode;
               image_paths := fst paths;
               label_paths := snd paths |}).

End Init.

(** ** Vocabulary of the properties *)

Definition has_tag (t : string) (e : element) : bool := (tag e =? t)%string.

(** The children of [e] tagged [t], in document order. *)
Definition children_tagged (t : string) (e : element) : list element :=
  filter (has_tag t) (children e).

(** The child of [e] tagged [t], when there is exactly one. *)
Definition the_child (t : string) (e : element) : option element :=
  match children_tagged t e with
  | [c] => Some c
  | _ => None
  end.

(** The class name of an [object] element: the text of its first child. *)
Definition class_name (o : element) : option string :=
  match children o with
  | c :: _ => text c
  | [] => None
  end.




Definition coord_tags : list string := ["xmin"; "xmax"; "ymin"; "ymax"].

(** The integer held by the one child of [b] tagged [t]. *)
Definition coord_value `{Interpreter} (t : string) (b : element) : option Z :=
  match the_child t b with
  | Some c =>
      match int (text c) with
      | Ok z => Some z
      | Raise _ => None
      end
  | None => None
  end.

(** The [object] elements of a file, and the [bndbox] elements under them,
    in document order. *)
Definition objects (root : element) : list element := children_tagged "object" root.

Definition bndboxes (root : element) : list element :=
  flat_map (children_tagged "bndbox") (objects root).



(** The local [t] of [extract_bb] after its loop has run over [cs] from the
    value [d]: only the children tagged [t] touch it. *)
Fixpoint coord_after `{Interpreter} (t : string) (cs : list element) (d : Z) : result Z :=
  match cs with
  | [] => Ok d
  | c :: rest =>
      if has_tag t c then z <- int (text c) ;; coord_after t rest z
      else coord_after t rest d
  end.




(** The two reads of an annotation file, in the order [load_label] makes
    them. *)
Definition parse_annotation `{Interpreter} {Image : Type} (w : World Image) (label_path : string)
  : result (list Z * Z) :=
  bbox <- get_bbox_from_xml w label_path ;;
  clazz <- get_class_from_xml w label_path ;;
  Ok (bbox, clazz).

(** What one [object] element gives as class code. *)
Definition class_of_object (o : element) : result Z :=
  clazz <- getitem (children o) 0 ;;
  c <- name_to_enum (text clazz) ;;
  Ok (value c).

(** [df2_enum_to_name[c]] looked up in [name_to_df2_enum]. *)
Definition name_roundtrip (c : DF2) : result DF2 :=
  n <- enum_to_name c ;; name_to_enum (Some n).

(** The optional transform of [__getitem__]. *)
Definition apply_transform {Image : Type} (f : option (Image -> result Image))
  (image : Image) : result Image :=
  match f with
  | Some g => g image
  | None => Ok image
  end.

(** A subset ratio the constructor accepts. *)
Definition ratio_ok (r : pynum) : bool := negb (num_le_zero r || num_gt_one r).

(** The product [r * n] is computed without rounding: [r] is an [int], or a
    positive binary64 whose mantissa is [M * 2 ^ a] with [M * n] below
    [2 ^ 53]. *)
Definition exact_product (r : pynum) (n : Z) : Prop :=
  match r with
  | PyInt _ => True
  | PyFloat (S754_finite false m e) =>
      valid_binary prec64 emax64 (S754_finite false m e) = true /\
      exists (M : positive) (a : Z), 0 <= a /\ Zpos m = Zpos M * 2 ^ a /\ Zpos M * n < 2 ^ 53
  | PyFloat _ => False
  end.

(** Neither a negative number nor minus infinity. *)
Definition not_negative (x : spec_float) : Prop :=
  match x with
  | S754_finite true _ _ | S754_infinity true => False
  | _ => True
  end.

(** The folder a split is read from. *)
Definition split_dir (root : string) (split : string) : string :=
  os_path_join (_get_root_data_folder root) split.

(** The names of [dir] that are files, in sorted order. *)
Definition sorted_names {Image : Type} (w : World Image) (dir : string)
  (names : list string) : list string :=
  filter (fun f => isfile w (os_path_join dir f)) (sorted names).

(** A tag that [extract_bb] reads. *)
Definition is_coord_tag (t : string) : bool := existsb (String.eqb t) coord_tags.

(** The children that [extract_bb] reads. *)
Definition coord_children (cs : list element) : list element :=
  filter (fun c => is_coord_tag (tag c)) cs.

(** A float subset ratio is a binary64 in canonical form (an [int] always
    is). *)
Definition valid_ratio (r : pynum) : bool :=
  match r with
  | PyInt _ => true
  | PyFloat x => valid_binary prec64 emax64 x
  end.

(** ** A small world to run the definitions in *)

Module Demo.

(** The interpreter of the examples: it reads ASCII decimal literals. *)
Definition reader : Interpreter :=
  {| int_of_text := fun s =>
       match int_of_str s with
       | Some z => IntValue z
       | None => IntInvalid ("'" ++ s ++ "'")
       end |}.

Definition leaf (t s : string) : element := Element t (Some s) [].

Definition bndbox (x0 x1 y0 y1 : string) : element :=
  Element "bndbox" None [leaf "xmin" x0; leaf "xmax" x1; leaf "ymin" y0; leaf "ymax" y1].

(** An annotation file with one object. *)
Definition annotation (name x0 x1 y0 y1 : string) : element :=
  Element "annotation" None
    [ leaf "filename" "a.jpg";
      Element "object" None [leaf "name" name; bndbox x0 x1 y0 y1] ].

(** An annotation file with two objects, the first without a bndbox. *)
Definition two_objects : element :=
  Element "annotation" None
    [ Element "object" None [leaf "name" "shorts"];
      Element "object" None [leaf "name" "vest"; bndbox "1" "2" "3" "4"] ].

(** The split [split] under [data/robotfashion_data_folder] holds the images
    [inames] and the annotations [anames]; every annotation file reads as
    [xml]. *)
Definition world (split : string) (inames anames : list string) (xml : element)
  : World unit :=
  {| listdir := fun d =>
       if (d =? "data/robotfashion_data_folder/" ++ split ++ "/images")%string
       then Ok inames
       else if (d =? "data/robotfashion_data_folder/" ++ split ++ "/annotations")%string
       then Ok anames
       else Raise (OSError d);
     isfile := fun _ => true;
     ET_parse := fun _ => Ok xml;
     Image_open := fun _ => Ok tt |}.

Definition folders_ok (w : World unit) (dir : string) (fs : list (string * string))
  (name : string) : bool := true.

Definition no_download (w : World unit) (dir : string)
  (links : list (string * string * string * Z)) : result (World unit) := Ok w.

Definition str_of_num (r : pynum) : string := "?".

Definition init (w : World unit) (mode : string) (subset_ratio : pynum)
  : result (World unit * RobotFashion unit) :=
  __init__ folders_ok no_download (fun s => s) str_of_num w "data" mode false
    subset_ratio None.

(** The accessor [init] builds, or an empty one when it raises. *)
Definition accessor (w : World unit) (mode : string) (subset_ratio : pynum)
  : RobotFashion unit :=
  match init w mode subset_ratio with
  | Ok (_, self) => self
  | Raise _ =>
      {| root := ""; transform := None; subset_ratio := subset_ratio; mode := mode;
         image_paths := []; label_paths := [] |}
  end.

(** The scenario of the specification: two images and two annotations in
    the train split, the annotation read being "shorts" with the box
    [10, 50, 20, 60]. *)
Definition scenario : World unit :=
  world "train" ["b.jpg"; "a.jpg"] ["b.xml"; "a.xml"]
    (annotation "shorts" "10" "50" "20" "60").

(** The same split, with an xmin that float32 cannot hold. *)
Definition wide : World unit :=
  world "train" ["b.jpg"; "a.jpg"] ["b.xml"; "a.xml"]
    (annotation "shorts" "16777217" "50" "20" "60").

Definition ten : list string :=
  ["0"; "1"; "2"; "3"; "4"; "5"; "6"; "7"; "8"; "9"].

(** A hundred names, "00" to "99". *)
Definition hundred : list string :=
  flat_map (fun a => map (fun b => a ++ b) ten) ten.

(** An annotation file with two objects, each with its bndbox. *)
Definition two_boxes : element :=
  Element "annotation" None
    [ Element "object" None [leaf "name" "shorts"; bndbox "10" "50" "20" "60"];
      Element "object" None [leaf "name" "vest"; bndbox "1" "2" "3" "4"] ].


(** Two images and two annotations in the train split, the annotation read
    having no [object] element. *)
Definition blank : World unit :=
  world "train" ["b.jpg"; "a.jpg"] ["b.xml"; "a.xml"] (Element "annotation" None []).

(** A disk without the data folder: nothing can be listed or read. *)
Definition bare : World unit :=
  {| listdir := fun d => Raise (OSError d);
     isfile := fun _ => false;
     ET_parse := fun p => Raise (OSError p);
     Image_open := fun p => Raise (OSError p) |}.

(** An integrity check that passes when the train images can be listed. *)
Definition folders_listed (w : World unit) (dir : string) (fs : list (string * string))
  (name : string) : bool :=
  is_ok (listdir w (os_path_join (os_path_join dir "train") "images")).

(** A download that leaves the scenario of the specification behind. *)
Definition download_scenario (w : World unit) (dir : string)
  (links : list (string * string * string * Z)) : result (World unit) :=
  Ok (world "train" ["b.jpg"; "a.jpg"] ["b.xml"; "a.xml"]
        (annotation "shorts" "10" "50" "20" "60")).

(** A bndbox whose xmin is given twice, first as a negative number. *)
Definition bndbox_twice : element :=
  Element "bndbox" None
    [leaf "xmin" "-5"; leaf "xmax" "50"; leaf "xmin" "10"; leaf "ymin" "20";
     leaf "ymax" "60"].

(** The binary64 nearest to 0.7: [6305039478318694 * 2 ^ -53]. *)
Definition f0_7 : spec_float := S754_finite false 6305039478318694 (-53).

(** The binary64 nearest to 0.57: [5134103575202365 * 2 ^ -53]. *)
Definition f0_57 : spec_float := S754_finite false 5134103575202365 (-53).

End Demo.

Section AnyInterpreter.

Context `{interp : Interpreter}.

(** * Properties *)

(** ** The category tables *)

Lemma value_range (c : DF2) : 1 <= value c <= 13.
Proof. destruct c; simpl; lia. Qed.

Lemma value_inj (a b : DF2) : value a = value b -> a = b.
Proof. destruct a, b; simpl; intros H; try reflexivity; discriminate H. Qed.

Lemma DF2_eqb_eq (a b : DF2) : DF2_eqb a b = true <-> a = b.
Proof.
  unfold DF2_eqb. rewrite Z.eqb_eq. split; [apply value_inj | intros ->; reflexivity].
Qed.

Lemma enum_to_name_total (c : DF2) : exists s, enum_to_name c = Ok s.
Proof. destruct c; eexists; reflexivity. Qed.

(** C2, evaluated on the code: the name of [long_sleeve_dress] is no key of
    the reverse table, so looking it up raises [KeyError]; the other twelve
    categories come back, and every code lies in 1..13 and belongs to one
    category only. *)
Theorem C2_roundtrip_breaks_at_long_sleeve_dress :
  (forall c : DF2,
      name_roundtrip c =
      if DF2_eqb c long_sleeve_dress
      then Raise (KeyError (Some "long_sleeve_dress"))
      else Ok c)
  /\ (forall c : DF2, 1 <= value c <= 13)
  /\ (forall a b : DF2, value a = value b -> a = b).
Proof.
  split; [|split].
  - intros c. destruct c; reflexivity.
  - exact value_range.
  - exact value_inj.
Qed.

(** C3, as stated, fails: ["short_sleeve_dres"] is no key of the reverse
    table, and the two tables agree on [short_sleeve_dress]. *)
Lemma C3_short_sleeve_dres_is_no_key :
  dict_get String.eqb name_to_df2_enum "short_sleeve_dres" = None
  /\ dict_get String.eqb name_to_df2_enum "short_sleeve_dress" = Some short_sleeve_dress
  /\ name_roundtrip short_sleeve_dress = Ok short_sleeve_dress.
Proof. repeat split; reflexivity. Qed.

(** C3, amended: the key spelled without its final "s" is
    ["long_sleeve_dres"], the entry of [long_sleeve_dress]; the full name is
    no key; the forward and the reverse table disagree on [long_sleeve_dress]
    and on no other category, and ["long_sleeve_dres"] is the only key that
    is not the forward name of its category. *)
Theorem C3_misspelled_key_is_long_sleeve_dres :
  dict_get String.eqb name_to_df2_enum "long_sleeve_dres" = Some long_sleeve_dress
  /\ dict_get String.eqb name_to_df2_enum "long_sleeve_dress" = None
  /\ (forall c : DF2, name_roundtrip c <> Ok c <-> c = long_sleeve_dress)
  /\ (forall (k : string) (c : DF2),
         In (k, c) name_to_df2_enum ->
         (enum_to_name c <> Ok k <-> k = "long_sleeve_dres")).
Proof.
  split; [reflexivity | split; [reflexivity | split]].
  - intros c. split.
    + destruct c; intros H; try reflexivity; exfalso; apply H; reflexivity.
    + intros ->. discriminate.
  - intros k c H. simpl in H.
    repeat (destruct H as [H | H];
            [inversion H; subst; clear H; split;
             [intros N; try reflexivity; exfalso; apply N; reflexivity
             | intros E; try discriminate E; intros F; discriminate F]
            |]).
    contradiction.
Qed.

(** ** Paths *)

Lemma append_inj_l (a x y : string) : (a ++ x = a ++ y)%string -> x = y.
Proof.
  induction a as [|c a IH]; simpl; intros H; [exact H|].
  injection H as H. exact (IH H).
Qed.

(** Joining a relative name appends it after a separator that depends on
    the first path only. *)
Lemma os_path_join_relative (a : string) :
  exists sep, forall b, startswith_slash b = false ->
                        os_path_join a b = (a ++ sep ++ b)%string.
Proof.
  unfold os_path_join.
  destruct ((a =? "")%string || endswith_slash a) eqn:E.
  - exists ""%string. intros b ->. reflexivity.
  - exists "/"%string. intros b ->. reflexivity.
Qed.

Lemma os_path_join_inj (a b b' : string) :
  startswith_slash b = false -> startswith_slash b' = false ->
  os_path_join a b = os_path_join a b' -> b = b'.
Proof.
  intros Hb Hb' H.
  destruct (os_path_join_relative a) as [sep Hsep].
  rewrite (Hsep b Hb), (Hsep b' Hb') in H.
  apply append_inj_l in H. apply append_inj_l in H. exact H.
Qed.

(** C10: the folders declared for the integrity check are "train", "val" and
    "test"; loading the validation split reads the folder "validation" of the
    data folder; that name is none of the declared ones, and the folder read
    is none of the folders checked. *)
Theorem C10_validation_folder_is_not_checked :
  map fst get_folders = ["train"; "val"; "test"]
  /\ (forall (Image : Type) (w : World Image) (root : string),
         load_val_data w root = load_data w (split_dir root "validation"))
  /\ ~ In "validation" (map fst get_folders)
  /\ (forall (root name : string),
         In name (map fst get_folders) ->
         split_dir root name <> split_dir root "validation").
Proof.
  split; [reflexivity | split; [reflexivity | split]].
  - simpl. intros [H | [H | [H | []]]]; discriminate H.
  - intros root name H E. unfold split_dir in E.
    apply os_path_join_inj in E;
      [| simpl in H; destruct H as [<- | [<- | [<- | []]]]; reflexivity | reflexivity].
    subst name. simpl in H. destruct H as [H | [H | [H | []]]]; discriminate H.
Qed.

(** ** Rounding: when a conversion or a product loses nothing *)

Lemma iter_pos_iter {A : Type} (f : A -> A) (p : positive) :
  forall x, iter_pos f p x = Pos.iter f x p.
Proof.
  induction p as [p IH | p IH |]; intros x; simpl.
  - rewrite !IH. rewrite <- !Pos.iter_swap. reflexivity.
  - rewrite !IH. reflexivity.
  - reflexivity.
Qed.

Lemma shr_1_double (m : Z) :
  shr_1 (Build_shr_record (2 * m) false false) = Build_shr_record m false false.
Proof. destruct m as [|p|p]; reflexivity. Qed.

Lemma iter_shr_1_exact (p : positive) :
  forall m, Pos.iter shr_1 (Build_shr_record (m * 2 ^ Zpos p) false false) p
            = Build_shr_record m false false.
Proof.
  induction p as [|p IH] using Pos.peano_ind; intros m.
  - replace (m * 2 ^ 1) with (2 * m) by lia. apply shr_1_double.
  - rewrite Pos.iter_succ, <- Pos.iter_swap.
    rewrite Pos2Z.inj_succ, Z.pow_succ_r by lia.
    replace (m * (2 * 2 ^ Z.pos p)) with (2 * (m * 2 ^ Z.pos p)) by lia.
    rewrite shr_1_double. apply IH.
Qed.

Lemma pos_iter_xO (m d : positive) : Zpos (Pos.iter xO m d) = Zpos m * 2 ^ Zpos d.
Proof.
  induction d as [|d IH] using Pos.peano_ind.
  - cbn [Pos.iter]. lia.
  - rewrite Pos.iter_succ, Pos2Z.inj_xO, IH, Pos2Z.inj_succ, Z.pow_succ_r by lia. lia.
Qed.

Lemma Zdigits2_log2 (p : positive) : Zdigits2 (Zpos p) = Z.log2 (Zpos p) + 1.
Proof.
  assert (H : digits2_pos p = Pos.size p) by (induction p; simpl; congruence).
  cbn [Zdigits2]. rewrite H. destruct p; simpl; lia.
Qed.

Lemma Zdigits2_mul_pow2 (M : positive) (k : Z) :
  0 <= k -> Zdigits2 (Zpos M * 2 ^ k) = Zdigits2 (Zpos M) + k.
Proof.
  intros Hk.
  assert (H : 0 < Zpos M * 2 ^ k)
    by (apply Z.mul_pos_pos; [lia | apply Z.pow_pos_nonneg; lia]).
  destruct (Zpos M * 2 ^ k) as [|q|q] eqn:E; try lia.
  rewrite !Zdigits2_log2, <- E, Z.log2_mul_pow2 by lia. lia.
Qed.

Lemma Zdigits2_bound (p : positive) (k : Z) :
  0 <= k -> (Zdigits2 (Zpos p) <= k <-> Zpos p < 2 ^ k).
Proof.
  intros Hk. rewrite Zdigits2_log2. split; intros H.
  - apply Z.log2_lt_pow2; lia.
  - apply Z.log2_lt_pow2 in H; lia.
Qed.

Lemma Zdigits2_pos (p : positive) : 1 <= Zdigits2 (Zpos p).
Proof. rewrite Zdigits2_log2. pose proof (Z.log2_nonneg (Zpos p)). lia. Qed.

Lemma mul_pow2_pos (m : positive) (k : Z) :
  0 <= k -> Zpos (Z.to_pos (Zpos m * 2 ^ k)) = Zpos m * 2 ^ k.
Proof.
  intros Hk. apply Z2Pos.id.
  apply Z.mul_pos_pos; [lia | apply Z.pow_pos_nonneg; lia].
Qed.

Lemma shiftl_mul_pow2_add (a j e : Z) :
  0 <= j -> Z.shiftl (a * 2 ^ j) e = Z.shiftl a (j + e).
Proof.
  intros Hj. rewrite <- Z.shiftl_mul_pow2 by lia. apply Z.shiftl_shiftl. lia.
Qed.

Section Round.

Variables prec emax : Z.

(** No shift is needed: the mantissa is kept. *)
Lemma binary_round_aux_keep (s : bool) (m : positive) (e : Z) :
  fexp prec emax (Zdigits2 (Zpos m) + e) <= e ->
  binary_round_aux prec emax s (Zpos m) e loc_Exact =
  if e <=? emax - prec then S754_finite s m e else S754_infinity s.
Proof.
  intros H. unfold binary_round_aux, shr_fexp.
  assert (E : shr (shr_record_of_loc (Z.pos m) loc_Exact) e
                (fexp prec emax (Zdigits2 (Z.pos m) + e) - e)
              = (Build_shr_record (Zpos m) false false, e)).
  { unfold shr.
    destruct (fexp prec emax (Zdigits2 (Z.pos m) + e) - e) eqn:E; try lia; reflexivity. }
  rewrite E. cbn [shr_m loc_of_shr_record round_nearest_even]. rewrite E. reflexivity.
Qed.

(** The bits shifted out are all zero: the rounding is exact. *)
Lemma binary_round_aux_shift (s : bool) (M p m : positive) (e : Z) :
  Zpos m = Zpos M * 2 ^ Zpos p ->
  fexp prec emax (Zdigits2 (Zpos m) + e) = e + Zpos p ->
  binary_round_aux prec emax s (Zpos m) e loc_Exact =
  if e + Zpos p <=? emax - prec then S754_finite s M (e + Zpos p) else S754_infinity s.
Proof.
  intros Hm H. unfold binary_round_aux, shr_fexp.
  assert (E1 : shr (shr_record_of_loc (Z.pos m) loc_Exact) e
                 (fexp prec emax (Zdigits2 (Z.pos m) + e) - e)
               = (Build_shr_record (Zpos M) false false, e + Zpos p)).
  { replace (fexp prec emax (Zdigits2 (Z.pos m) + e) - e) with (Zpos p) by lia.
    unfold shr. cbn [shr_record_of_loc].
    rewrite iter_pos_iter, Hm, iter_shr_1_exact. reflexivity. }
  rewrite E1. cbn [shr_m loc_of_shr_record round_nearest_even].
  assert (E2 : shr (shr_record_of_loc (Z.pos M) loc_Exact) (e + Zpos p)
                 (fexp prec emax (Zdigits2 (Z.pos M) + (e + Zpos p)) - (e + Zpos p))
               = (Build_shr_record (Zpos M) false false, e + Zpos p)).
  { rewrite Hm, Zdigits2_mul_pow2 in H by lia.
    replace (Zdigits2 (Z.pos M) + (e + Z.pos p))
      with (Zdigits2 (Z.pos M) + Z.pos p + e) by lia.
    rewrite H. replace (e + Z.pos p - (e + Z.pos p)) with 0 by lia. reflexivity. }
  rewrite E2. reflexivity.
Qed.

Lemma shl_align_le (m : positive) (e e0 : Z) :
  e0 <= e -> shl_align m e e0 = (Z.to_pos (Zpos m * 2 ^ (e - e0)), e0).
Proof.
  intros H. unfold shl_align. destruct (e0 - e) as [|d|d] eqn:E; try lia.
  - replace (e - e0) with 0 by lia. replace e0 with e by lia.
    rewrite Z.mul_1_r. reflexivity.
  - replace (e - e0) with (Zpos d) by lia. rewrite <- pos_iter_xO. reflexivity.
Qed.

Lemma shl_align_gt (m : positive) (e e0 : Z) : e < e0 -> shl_align m e e0 = (m, e).
Proof.
  intros H. unfold shl_align. destruct (e0 - e) as [|d|d] eqn:E; try lia. reflexivity.
Qed.

(** [binary_round] on a short mantissa: it is shifted left, nothing is lost. *)
Lemma binary_round_widen (s : bool) (m : positive) (e : Z) :
  let e0 := fexp prec emax (Zdigits2 (Zpos m) + e) in
  e0 <= e ->
  binary_round prec emax s m e =
  if e0 <=? emax - prec then S754_finite s (Z.to_pos (Zpos m * 2 ^ (e - e0))) e0
  else S754_infinity s.
Proof.
  intros e0 H. unfold binary_round. cbn [Zdigits2] in e0. fold e0.
  rewrite shl_align_le by exact H.
  apply binary_round_aux_keep.
  rewrite mul_pow2_pos, Zdigits2_mul_pow2 by lia.
  replace (Zdigits2 (Z.pos m) + (e - e0) + e0) with (Zdigits2 (Z.pos m) + e) by lia.
  cbn [Zdigits2]. fold e0. lia.
Qed.

(** [binary_round] on a long mantissa whose low bits are zero. *)
Lemma binary_round_narrow (s : bool) (M m : positive) (e : Z) :
  let e0 := fexp prec emax (Zdigits2 (Zpos m) + e) in
  e < e0 ->
  Zpos m = Zpos M * 2 ^ (e0 - e) ->
  binary_round prec emax s m e =
  if e0 <=? emax - prec then S754_finite s M e0 else S754_infinity s.
Proof.
  intros e0 H Hm. unfold binary_round. cbn [Zdigits2] in e0. fold e0.
  rewrite shl_align_gt by exact H.
  destruct (e0 - e) as [|p|p] eqn:E; try lia.
  replace e0 with (e + Zpos p) by lia.
  apply binary_round_aux_shift; [exact Hm|]. cbn [Zdigits2]. fold e0. lia.
Qed.

End Round.

(** [float(z)] is exact below [2 ^ 53]. *)
Lemma f64_of_int_exact (p : positive) :
  Zpos p < 2 ^ 53 ->
  let d := Zdigits2 (Zpos p) in
  f64_of_int (Zpos p) = Ok (S754_finite false (Z.to_pos (Zpos p * 2 ^ (53 - d))) (d - 53)).
Proof.
  intros H d. unfold f64_of_int, binary_normalize.
  assert (Hd : d <= 53) by (apply Zdigits2_bound; [lia | exact H]).
  pose proof (Zdigits2_pos p) as Hd1. fold d in Hd1.
  assert (E : fexp prec64 emax64 (Zdigits2 (Zpos p) + 0) = d - 53).
  { unfold fexp, emin, prec64, emax64. fold d. lia. }
  rewrite binary_round_widen; rewrite E; [|lia].
  replace (0 - (d - 53)) with (53 - d) by lia.
  unfold emax64, prec64.
  destruct (d - 53 <=? 1024 - 53) eqn:L; [reflexivity | lia].
Qed.

(** The float64 of an integer below [2 ^ 24], cast to float32, is exact. *)
Lemma f32_of_f64_int_exact (p : positive) :
  Zpos p < 2 ^ 24 ->
  let d := Zdigits2 (Zpos p) in
  f32_of_f64 (S754_finite false (Z.to_pos (Zpos p * 2 ^ (53 - d))) (d - 53)) =
  S754_finite false (Z.to_pos (Zpos p * 2 ^ (24 - d))) (d - 24).
Proof.
  intros H d.
  assert (Hd : d <= 24) by (apply Zdigits2_bound; [lia | exact H]).
  pose proof (Zdigits2_pos p) as Hd1. fold d in Hd1.
  cbn [f32_of_f64].
  assert (D : Zdigits2 (Zpos (Z.to_pos (Zpos p * 2 ^ (53 - d)))) = 53).
  { rewrite mul_pow2_pos, Zdigits2_mul_pow2 by lia. fold d. lia. }
  assert (E : fexp prec32 emax32
                (Zdigits2 (Zpos (Z.to_pos (Zpos p * 2 ^ (53 - d)))) + (d - 53)) = d - 24).
  { rewrite D. unfold fexp, emin, prec32, emax32. lia. }
  rewrite (binary_round_narrow _ _ _ (Z.to_pos (Zpos p * 2 ^ (24 - d)))); rewrite E.
  - unfold emax32, prec32. destruct (d - 24 <=? 128 - 24) eqn:L; [reflexivity | lia].
  - lia.
  - rewrite !mul_pow2_pos by lia. replace (d - 24 - (d - 53)) with 29 by lia.
    rewrite <- Z.mul_assoc, <- Z.pow_add_r by lia. f_equal. f_equal. lia.
Qed.

Lemma SF2Q_int_scaled (p : positive) (k : Z) :
  0 <= k ->
  (SF2Q (S754_finite false (Z.to_pos (Zpos p * 2 ^ k)) (- k)) == inject_Z (Zpos p))%Q.
Proof.
  intros Hk. unfold SF2Q. destruct k as [|k|k]; try lia.
  - cbn [Z.opp]. rewrite mul_pow2_pos by lia. cbn [cond_Zopp].
    replace (Z.pos p * 2 ^ 0 * 2 ^ 0) with (Zpos p) by lia. reflexivity.
  - cbn [Z.opp cond_Zopp]. rewrite mul_pow2_pos by lia.
    unfold Qeq. cbn [Qnum Qden inject_Z]. rewrite Pos2Z.inj_pow. lia.
Qed.

(** An integer of at most [2 ^ 24] survives [float64] then [float32]. *)
Lemma box_entry_exact (z : Z) :
  0 <= z <= 2 ^ 24 ->
  exists x, f64_of_int z = Ok x
            /\ is_finite (f32_of_f64 x) = true
            /\ (SF2Q (f32_of_f64 x) == inject_Z z)%Q.
Proof.
  intros Hz. destruct z as [|p|p]; try lia.
  - exists zero64. repeat split; reflexivity.
  - destruct (Z.eq_dec (Zpos p) (2 ^ 24)) as [E | N].
    + rewrite E. eexists. split; [vm_compute; reflexivity|].
      split; vm_compute; reflexivity.
    + assert (H : Zpos p < 2 ^ 24) by lia.
      rewrite f64_of_int_exact by lia.
      eexists. split; [reflexivity|].
      rewrite (f32_of_f64_int_exact p H). split; [reflexivity|].
      replace (Zdigits2 (Z.pos p) - 24) with (- (24 - Zdigits2 (Z.pos p))) by lia.
      apply SF2Q_int_scaled.
      assert (Zdigits2 (Zpos p) <= 24) by (apply Zdigits2_bound; lia). lia.
Qed.

(** A category code survives [float64] then [int64]. *)
Lemma label_entry_exact (c : DF2) :
  (x <- f64_of_int (value c) ;; Ok (long_of_f64 x)) = Ok (value c).
Proof. destruct c; vm_compute; reflexivity. Qed.

Lemma valid64_bounds (mf : positive) (ef : Z) :
  valid_binary prec64 emax64 (S754_finite false mf ef) = true ->
  -1074 <= ef /\ Zdigits2 (Zpos mf) <= 53.
Proof.
  unfold valid_binary, bounded, canonical_mantissa, fexp, emin, prec64, emax64.
  intros H. apply andb_prop in H. destruct H as [H _]. apply Z.eqb_eq in H.
  cbn [Zdigits2]. lia.
Qed.

Lemma le_one64_exp (mf : positive) (ef : Z) :
  SFltb one64 (S754_finite false mf ef) = false -> ef <= -52.
Proof.
  unfold SFltb, SFcompare, one64. intros H.
  destruct (Z.compare_spec (-52) ef) as [E|E|E]; [lia | discriminate H | lia].
Qed.

(** The product of a float in (0, 1] and a positive int, truncated: exact
    when the odd part of the mantissa times the int fits in 53 bits. *)
Lemma mul_int_exact (mf M p : positive) (a ef : Z) :
  valid_binary prec64 emax64 (S754_finite false mf ef) = true ->
  SFltb one64 (S754_finite false mf ef) = false ->
  0 <= a -> Zpos mf = Zpos M * 2 ^ a ->
  Zpos M * Zpos p < 2 ^ 53 ->
  (v <- num_mul_int (PyFloat (S754_finite false mf ef)) (Zpos p) ;; int_of_num v)
  = Ok (Z.shiftl (Zpos mf * Zpos p) ef).
Proof.
  intros Hv Hle Ha Hmf Hfit.
  destruct (valid64_bounds _ _ Hv) as [Hef Hdf]. apply le_one64_exp in Hle.
  assert (Hp : Zpos p < 2 ^ 53) by nia.
  set (d := Zdigits2 (Zpos p)).
  assert (Hd : 1 <= d <= 53).
  { split; [apply Zdigits2_pos | apply Zdigits2_bound; lia]. }
  assert (Ha52 : a <= 52).
  { rewrite Hmf, Zdigits2_mul_pow2 in Hdf by lia. pose proof (Zdigits2_pos M). lia. }
  unfold num_mul_int. rewrite f64_of_int_exact by exact Hp. fold d.
  cbn [bind int_of_num SFmul xorb].
  set (my := Z.to_pos (Zpos p * 2 ^ (53 - d))).
  assert (Hmy : Zpos my = Zpos p * 2 ^ (53 - d)) by (apply mul_pow2_pos; lia).
  set (q := Zdigits2 (Zpos (M * p))).
  assert (Hq : 1 <= q <= 53).
  { split; [apply Zdigits2_pos | apply Zdigits2_bound; lia]. }
  assert (Hm : Zpos (mf * my) = Zpos (M * p) * 2 ^ (a + (53 - d))).
  { rewrite !Pos2Z.inj_mul, Hmf, Hmy, Z.pow_add_r by lia. ring. }
  assert (Hdig : Zdigits2 (Zpos (mf * my)) = q + (a + (53 - d))).
  { rewrite Hm, Zdigits2_mul_pow2 by lia. reflexivity. }
  set (e := ef + (d - 53)).
  set (e0 := fexp prec64 emax64 (Zdigits2 (Zpos (mf * my)) + e)).
  assert (He0 : e0 = Z.max (q + a + ef - 53) (-1074)).
  { unfold e0, e, fexp, emin, prec64, emax64. rewrite Hdig. lia. }
  assert (Hval : Z.shiftl (Zpos (mf * my)) e = Z.shiftl (Zpos mf * Zpos p) ef).
  { rewrite Pos2Z.inj_mul, Hmy, Z.mul_assoc, shiftl_mul_pow2_add by lia.
    f_equal. unfold e. lia. }
  destruct (Z_le_gt_dec e0 e) as [L|G].
  - rewrite binary_round_aux_keep by (fold e0; exact L).
    unfold emax64, prec64. destruct (e <=? 1024 - 53) eqn:B; [|unfold e in B; lia].
    cbn [int_of_f64 cond_Zopp]. rewrite Hval. reflexivity.
  - assert (Hk : exists kp, e0 - e = Zpos kp)
      by (destruct (e0 - e) eqn:Ek; try lia; eauto).
    destruct Hk as [kp Ek].
    assert (Hk : Zpos kp <= a + (53 - d)) by (unfold e in *; lia).
    set (M' := Z.to_pos (Zpos (M * p) * 2 ^ (a + (53 - d) - Zpos kp))).
    assert (HM' : Zpos M' = Zpos (M * p) * 2 ^ (a + (53 - d) - Zpos kp))
      by (apply mul_pow2_pos; lia).
    rewrite (binary_round_aux_shift prec64 emax64 false M' kp).
    + unfold emax64, prec64.
      destruct (e + Zpos kp <=? 1024 - 53) eqn:B; [|unfold e in *; lia].
      cbn [int_of_f64 cond_Zopp]. rewrite <- Hval.
      rewrite Hm, HM'.
      rewrite (shiftl_mul_pow2_add _ (a + (53 - d) - Z.pos kp)) by lia.
      rewrite (shiftl_mul_pow2_add _ (a + (53 - d))) by lia. do 2 f_equal. lia.
    + rewrite Hm, HM', <- Z.mul_assoc, <- Z.pow_add_r by lia. f_equal. f_equal. lia.
    + fold e0. lia.
Qed.

Lemma Qfloor_SF2Q_mul (mf : positive) (ef n : Z) :
  Qfloor (SF2Q (S754_finite false mf ef) * inject_Z n) = Z.shiftl (Zpos mf * n) ef.
Proof.
  unfold SF2Q. cbn [cond_Zopp]. destruct ef as [|k|k].
  - unfold Qfloor, Qmult, inject_Z. cbn [Qnum Qden Pos.mul].
    rewrite Z.div_1_r. cbn [Z.shiftl]. cbn [Z.pow]. lia.
  - unfold Qfloor, Qmult, inject_Z. cbn [Qnum Qden Pos.mul].
    rewrite Z.div_1_r. rewrite Z.shiftl_mul_pow2 by lia. ring.
  - unfold Qfloor, Qmult. cbn [Qnum Qden inject_Z]. rewrite Pos.mul_1_r, Pos2Z.inj_pow.
    change (Z.shiftl (Z.pos mf * n) (Z.neg k)) with (Z.shiftr (Z.pos mf * n) (Zpos k)).
    rewrite Z.shiftr_div_pow2 by lia. reflexivity.
Qed.

Lemma Qfloor_inject_mul (z n : Z) : Qfloor (inject_Z z * inject_Z n) = z * n.
Proof.
  unfold Qfloor, Qmult, inject_Z. cbn [Qnum Qden Pos.mul]. apply Z.div_1_r.
Qed.

(** ** The annotation readers *)

Lemma getitem_head {A : Type} (a : A) (l : list A) : getitem (a :: l) 0 = Ok a.
Proof.
  unfold getitem. cbn [List.length]. rewrite Nat2Z.inj_succ.
  change (0 <? 0) with false. cbv iota.
  destruct (Z.ltb_spec 0 (Z.succ (Z.of_nat (List.length l)))) as [_ | H]; [reflexivity | lia].
Qed.

Lemma getitem_nil {A : Type} (i : Z) : @getitem A [] i = Raise IndexError.
Proof.
  unfold getitem. cbn [List.length Z.of_nat].
  destruct (i <? 0) eqn:E.
  - destruct (Z.leb_spec 0 (i + 0)); [apply Z.ltb_lt in E; lia | reflexivity].
  - destruct (Z.leb_spec 0 i); [|reflexivity].
    destruct (Z.ltb_spec i 0); [lia | reflexivity].
Qed.

Lemma getitem_in_range {A : Type} (l : list A) (i : Z) :
  0 <= i < Z.of_nat (List.length l) ->
  exists a, nth_error l (Z.to_nat i) = Some a /\ getitem l i = Ok a.
Proof.
  intros H. unfold getitem.
  destruct (Z.ltb_spec i 0) as [N | _]; [lia|].
  destruct (Z.leb_spec 0 i) as [_ | N]; [|lia].
  destruct (Z.ltb_spec i (Z.of_nat (List.length l))) as [_ | N]; [|lia].
  cbn [andb].
  destruct (nth_error l (Z.to_nat i)) as [a|] eqn:E.
  - exists a. split; reflexivity.
  - apply nth_error_None in E. lia.
Qed.

Lemma first_bndbox_filter (l : list element) :
  first_bndbox l = hd_error (filter (has_tag "bndbox") l).
Proof.
  induction l as [|g l IH]; [reflexivity|].
  cbn [first_bndbox filter]. unfold has_tag at 1.
  destruct (tag g =? "bndbox")%string; [reflexivity | exact IH].
Qed.

(** [get_class_from_xml] reads the first [object] child. *)
Lemma get_class_loop_first (cs : list element) :
  get_class_loop cs =
  match filter (has_tag "object") cs with
  | [] => Raise (ValueError "no name in xml")
  | o :: _ => class_of_object o
  end.
Proof.
  induction cs as [|c cs IH]; [reflexivity|].
  cbn [get_class_loop filter]. unfold has_tag at 1.
  destruct (tag c =? "object")%string; [reflexivity | exact IH].
Qed.

(** [get_bbox_from_xml] reads the first [bndbox] child of an [object]
    child. *)
Lemma get_bbox_loop_first (cs : list element) :
  get_bbox_loop cs =
  match flat_map (children_tagged "bndbox") (filter (has_tag "object") cs) with
  | [] => Raise (ValueError "no bounding box in xml")
  | b :: _ => extract_bb b
  end.
Proof.
  induction cs as [|c cs IH]; [reflexivity|].
  cbn [get_bbox_loop filter]. unfold has_tag at 1.
  destruct (tag c =? "object")%string; [|exact IH].
  cbn [flat_map]. rewrite first_bndbox_filter. unfold children_tagged at 1.
  destruct (filter (has_tag "bndbox") (children c)) as [|b bs]; [exact IH | reflexivity].
Qed.



(** The reverse table sends the canonical name of every category other than
    [long_sleeve_dress] back to the category. *)
Lemma canonical_name_resolved (c : DF2) (name : string) :
  enum_to_name c = Ok name -> c <> long_sleeve_dress ->
  name_to_enum (Some name) = Ok c.
Proof.
  intros H N. destruct c; try (exfalso; apply N; reflexivity);
    vm_compute in H; injection H as <-; reflexivity.
Qed.

(** One round of the loop of [extract_bb], by the tag of the child. *)
Lemma coord_tag_cases (c : element) :
  (has_tag "xmin" c = true /\ has_tag "xmax" c = false
   /\ has_tag "ymin" c = false /\ has_tag "ymax" c = false)
  \/ (has_tag "xmin" c = false /\ has_tag "xmax" c = true
      /\ has_tag "ymin" c = false /\ has_tag "ymax" c = false)
  \/ (has_tag "xmin" c = false /\ has_tag "xmax" c = false
      /\ has_tag "ymin" c = true /\ has_tag "ymax" c = false)
  \/ (has_tag "xmin" c = false /\ has_tag "xmax" c = false
      /\ has_tag "ymin" c = false /\ has_tag "ymax" c = true)
  \/ (has_tag "xmin" c = false /\ has_tag "xmax" c = false
      /\ has_tag "ymin" c = false /\ has_tag "ymax" c = false).
Proof.
  unfold has_tag.
  destruct (String.eqb_spec (tag c) "xmin") as [E | _];
    [left; rewrite E; repeat split|].
  destruct (String.eqb_spec (tag c) "xmax") as [E | _];
    [right; left; rewrite E; repeat split|].
  destruct (String.eqb_spec (tag c) "ymin") as [E | _];
    [right; right; left; rewrite E; repeat split|].
  destruct (String.eqb_spec (tag c) "ymax") as [E | _];
    [right; right; right; left; repeat split|].
  right; right; right; right; repeat split.
Qed.

(** The loop of [extract_bb] is four independent reads; it fails as soon as
    one of them does. *)
Lemma extract_bb_loop_spec (cs : list element) :
  forall st : bb_state,
    match coord_after "xmin" cs (xmin st), coord_after "xmax" cs (xmax st),
          coord_after "ymin" cs (ymin st), coord_after "ymax" cs (ymax st) with
    | Ok x0, Ok x1, Ok y0, Ok y1 =>
        extract_bb_loop cs st = Ok {| xmin := x0; xmax := x1; ymin := y0; ymax := y1 |}
    | _, _, _, _ => is_ok (extract_bb_loop cs st) = false
    end.
Proof.
  induction cs as [|c cs IH]; intros st.
  - destruct st; reflexivity.
  - cbn [coord_after extract_bb_loop]. unfold extract_bb_step.
    fold (has_tag "xmin" c) (has_tag "xmax" c) (has_tag "ymin" c) (has_tag "ymax" c).
    destruct (coord_tag_cases c) as [H | [H | [H | [H | H]]]];
      destruct H as (H0 & H1 & H2 & H3); rewrite H0, H1, H2, H3;
      cbn [bind]; try (destruct (int (text c)) as [z | e]; cbn [bind]);
      try (specialize (IH {| xmin := z; xmax := xmax st; ymin := ymin st; ymax := ymax st |});
           exact IH);
      try (specialize (IH {| xmin := xmin st; xmax := z; ymin := ymin st; ymax := ymax st |});
           exact IH);
      try (specialize (IH {| xmin := xmin st; xmax := xmax st; ymin := z; ymax := ymax st |});
           exact IH);
      try (specialize (IH {| xmin := xmin st; xmax := xmax st; ymin := ymin st; ymax := z |});
           exact IH);
      try (specialize (IH {| xmin := xmin st; xmax := xmax st; ymin := ymin st;
                             ymax := ymax st |}); exact IH);
      repeat match goal with
             | |- context [match ?r with Ok _ => _ | Raise _ => _ end] => destruct r
             end; reflexivity.
Qed.

Lemma coord_after_filter (t : string) (cs : list element) :
  forall d, coord_after t cs d = coord_after t (filter (has_tag t) cs) d.
Proof.
  induction cs as [|c cs IH]; intros d; [reflexivity|].
  cbn [coord_after filter]. destruct (has_tag t c) eqn:E.
  - cbn [coord_after]. rewrite E. destruct (int (text c)); cbn [bind]; [apply IH | reflexivity].
  - apply IH.
Qed.

Lemma the_child_tagged (t : string) (e c : element) :
  the_child t e = Some c -> children_tagged t e = [c].
Proof.
  unfold the_child. destruct (children_tagged t e) as [|x [|y l]]; intros H;
    try discriminate H. injection H as ->. reflexivity.
Qed.

Lemma children_tagged_has_tag (t : string) (e c : element) :
  In c (children_tagged t e) -> has_tag t c = true.
Proof. unfold children_tagged. intros H. apply filter_In in H. apply H. Qed.

Lemma coord_value_after (t : string) (b : element) (z d : Z) :
  coord_value t b = Some z -> coord_after t (children b) d = Ok z.
Proof.
  unfold coord_value. destruct (the_child t b) as [c|] eqn:E; [|discriminate].
  pose proof (the_child_tagged _ _ _ E) as F.
  assert (T : has_tag t c = true)
    by (apply (children_tagged_has_tag t b); rewrite F; left; reflexivity).
  destruct (int (text c)) as [v|] eqn:I; [|discriminate].
  intros H. injection H as ->.
  rewrite coord_after_filter. fold (children_tagged t b). rewrite F.
  cbn [coord_after]. rewrite T, I. reflexivity.
Qed.


Lemma extract_bb_ok (b : element) (x0 x1 y0 y1 : Z) :
  coord_after "xmin" (children b) (-1) = Ok x0 ->
  coord_after "xmax" (children b) (-1) = Ok x1 ->
  coord_after "ymin" (children b) (-1) = Ok y0 ->
  coord_after "ymax" (children b) (-1) = Ok y1 ->
  0 <= x0 -> 0 <= x1 -> 0 <= y0 -> 0 <= y1 ->
  extract_bb b = Ok [x0; x1; y0; y1].
Proof.
  intros A0 A1 A2 A3 P0 P1 P2 P3. unfold extract_bb.
  pose proof (extract_bb_loop_spec (children b)
                {| xmin := -1; xmax := -1; ymin := -1; ymax := -1 |}) as L.
  cbn [xmin xmax ymin ymax] in L. rewrite A0, A1, A2, A3 in L. rewrite L.
  cbn [bind xmin xmax ymin ymax].
  destruct (Z.ltb_spec x0 0), (Z.ltb_spec x1 0), (Z.ltb_spec y0 0), (Z.ltb_spec y1 0);
    try lia. reflexivity.
Qed.


Lemma filter_app_first {A : Type} (f : A -> bool) (pre post : list A) (x : A) :
  filter f pre = [] -> f x = true ->
  filter f (pre ++ x :: post) = x :: filter f post.
Proof.
  intros Hpre Hx. rewrite filter_app, Hpre. cbn [app filter]. rewrite Hx. reflexivity.
Qed.

Lemma get_class_loop_root (root : element) :
  get_class_loop (children root) =
  match objects root with
  | [] => Raise (ValueError "no name in xml")
  | o :: _ => class_of_object o
  end.
Proof. apply get_class_loop_first. Qed.

Lemma get_bbox_loop_root (root : element) :
  get_bbox_loop (children root) =
  match bndboxes root with
  | [] => Raise (ValueError "no bounding box in xml")
  | b :: _ => extract_bb b
  end.
Proof. apply get_bbox_loop_first. Qed.

Lemma bndboxes_no_objects (root : element) : objects root = [] -> bndboxes root = [].
Proof. unfold bndboxes. intros ->. reflexivity. Qed.

End AnyInterpreter.

Section TestInterpreter.

#[local] Existing Instance Demo.reader.

(** C6, as stated, fails: in a file whose first [object] has no [bndbox],
    the class code is read from the first object and the box from the
    second. *)
Lemma C6_box_read_from_second_object :
  exists first second b,
    children Demo.two_objects = [first; second]
    /\ has_tag "object" first = true /\ has_tag "object" second = true
    /\ children_tagged "bndbox" first = []
    /\ children_tagged "bndbox" second = [b]
    /\ class_of_object first = Ok 7
    /\ extract_bb b = Ok [1; 2; 3; 4]
    /\ parse_annotation (Demo.world "train" ["a.jpg"] ["a.xml"] Demo.two_objects) "a.xml"
       = Ok ([1; 2; 3; 4], 7).
Proof.
  do 3 eexists. repeat split; reflexivity.
Qed.

End TestInterpreter.

Section AnyInterpreter.

Context `{interp : Interpreter}.

(** C6, amended: in every annotation file the class code is read from the
    first [object] element, and when that element has a [bndbox] child the
    bounding box is read from its first such child; whatever follows the
    first [object] element is not used. *)
Theorem C6_first_object_only (Image : Type) (w : World Image) (xml_path : string)
  (root o : element) (pre post : list element) :
  ET_parse w xml_path = Ok root ->
  children root = (pre ++ o :: post)%list ->
  filter (has_tag "object") pre = [] ->
  has_tag "object" o = true ->
  get_class_from_xml w xml_path = class_of_object o
  /\ (forall b, first_bndbox (children o) = Some b ->
                get_bbox_from_xml w xml_path = extract_bb b).
Proof.
  intros Hparse Hcs Hpre Ho. unfold get_class_from_xml, get_bbox_from_xml.
  rewrite Hparse. cbn [bind]. rewrite Hcs. split.
  - rewrite get_class_loop_first, (filter_app_first _ _ _ _ Hpre Ho). reflexivity.
  - intros b Hb. rewrite get_bbox_loop_first, (filter_app_first _ _ _ _ Hpre Ho).
    cbn [flat_map]. rewrite first_bndbox_filter in Hb. unfold children_tagged at 1.
    destruct (filter (has_tag "bndbox") (children o)) as [|b' bs]; [discriminate Hb|].
    injection Hb as ->. reflexivity.
Qed.

End AnyInterpreter.

Section TestInterpreter.

#[local] Existing Instance Demo.reader.

(** A file with two objects, each with a name and a bndbox: the class and
    the box are those of the first, "shorts" (code 7) and [10, 50, 20, 60];
    "vest" and [1, 2, 3, 4] of the second are not used. *)
Lemma C6_first_object_only_witness :
  get_class_from_xml (Demo.world "train" ["a.jpg"] ["a.xml"] Demo.two_boxes) "a.xml"
  = Ok 7
  /\ get_bbox_from_xml (Demo.world "train" ["a.jpg"] ["a.xml"] Demo.two_boxes) "a.xml"
     = Ok [10; 50; 20; 60].
Proof.
  pose proof (C6_first_object_only unit
                (Demo.world "train" ["a.jpg"] ["a.xml"] Demo.two_boxes)
                "a.xml" Demo.two_boxes
                (Element "object" None
                   [Demo.leaf "name" "shorts"; Demo.bndbox "10" "50" "20" "60"])
                []
                [Element "object" None
                   [Demo.leaf "name" "vest"; Demo.bndbox "1" "2" "3" "4"]]
                eq_refl eq_refl eq_refl eq_refl) as [Hc Hb].
  split.
  - rewrite Hc. reflexivity.
  - rewrite (Hb (Demo.bndbox "10" "50" "20" "60") eq_refl). reflexivity.
Defined.

End TestInterpreter.

Section AnyInterpreter.

Context `{interp : Interpreter}.


End AnyInterpreter.

Section TestInterpreter.

#[local] Existing Instance Demo.reader.



End TestInterpreter.

Section AnyInterpreter.

Context `{interp : Interpreter}.

(** ** Retrieval *)

Lemma getitem_nth_error {A : Type} (l : list A) (i : Z) (a : A) :
  0 <= i -> nth_error l (Z.to_nat i) = Some a -> getitem l i = Ok a.
Proof.
  intros Hi Hn.
  assert (Hlt : (Z.to_nat i < List.length l)%nat)
    by (apply nth_error_Some; rewrite Hn; discriminate).
  destruct (getitem_in_range l i) as [a' [Ha' Hg]]; [lia|].
  rewrite Hn in Ha'. injection Ha' as <-. exact Hg.
Qed.

Lemma class_of_object_named (o : element) (name : string) (c : DF2) :
  class_name o = Some name -> name_to_enum (Some name) = Ok c ->
  class_of_object o = Ok (value c).
Proof.
  unfold class_name, class_of_object. destruct (children o) as [|c0 cs]; [discriminate|].
  intros Ht Hc. rewrite getitem_head. cbn [bind]. rewrite Ht, Hc. reflexivity.
Qed.

(** [load_label] on an annotation file whose first [object] names a
    category and holds, in its first [bndbox], coordinates of at most
    [2 ^ 24]. *)
Lemma load_label_well_formed (Image : Type) (w : World Image) (label_path : string)
  (xml o b : element) (name : string) (c : DF2) (x0 x1 y0 y1 : Z) :
  ET_parse w label_path = Ok xml ->
  hd_error (objects xml) = Some o ->
  class_name o = Some name ->
  name_to_enum (Some name) = Ok c ->
  hd_error (children_tagged "bndbox" o) = Some b ->
  coord_value "xmin" b = Some x0 -> coord_value "xmax" b = Some x1 ->
  coord_value "ymin" b = Some y0 -> coord_value "ymax" b = Some y1 ->
  0 <= x0 <= 2 ^ 24 -> 0 <= x1 <= 2 ^ 24 ->
  0 <= y0 <= 2 ^ 24 -> 0 <= y1 <= 2 ^ 24 ->
  exists bx,
    load_label w label_path
    = Ok {| boxes := bx; labels := {| t_shape := [1%nat]; t_data := [value c] |} |}
    /\ t_shape bx = [1%nat; 4%nat]
    /\ Forall2 (fun f z => is_finite f = true /\ (SF2Q f == inject_Z z)%Q)
         (t_data bx) [x0; x1; y0; y1].
Proof.
  intros Hparse Ho Hname Hc Hb C0 C1 C2 C3 B0 B1 B2 B3.
  destruct (objects xml) as [|o' os] eqn:Eo; [discriminate Ho|].
  injection Ho as ->.
  destruct (children_tagged "bndbox" o) as [|b' bs] eqn:Eb; [discriminate Hb|].
  injection Hb as ->.
  assert (Hbbox : get_bbox_from_xml w label_path = Ok [x0; x1; y0; y1]).
  { unfold get_bbox_from_xml. rewrite Hparse. cbn [bind].
    rewrite get_bbox_loop_root. unfold bndboxes. rewrite Eo.
    cbn [flat_map]. rewrite Eb. cbn [app].
    apply extract_bb_ok; try (apply coord_value_after; assumption); lia. }
  assert (Hclass : get_class_from_xml w label_path = Ok (value c)).
  { unfold get_class_from_xml. rewrite Hparse. cbn [bind].
    rewrite get_class_loop_root, Eo.
    apply (class_of_object_named o name c Hname Hc). }
  destruct (box_entry_exact x0 B0) as (f0 & E0 & F0 & Q0).
  destruct (box_entry_exact x1 B1) as (f1 & E1 & F1 & Q1).
  destruct (box_entry_exact y0 B2) as (g0 & E2 & F2 & Q2).
  destruct (box_entry_exact y1 B3) as (g1 & E3 & F3 & Q3).
  pose proof (label_entry_exact c) as L.
  destruct (f64_of_int (value c)) as [v|] eqn:Ev; [|discriminate L].
  cbn [bind] in L. injection L as L.
  exists {| t_shape := [1%nat; 4%nat];
            t_data := [f32_of_f64 f0; f32_of_f64 f1; f32_of_f64 g0; f32_of_f64 g1] |}.
  split; [|split].
  - unfold load_label. rewrite Hbbox. cbn [bind].
    unfold assign_row0. cbn [zeros shape mapM]. rewrite E0, E1, E2, E3. cbn [bind].
    cbn [List.length Nat.eqb]. rewrite Hclass. cbn [bind].
    unfold assign_item0. cbn [zeros shape]. rewrite Ev. cbn [bind].
    unfold tensor_float, tensor_long. cbn. rewrite L. reflexivity.
  - reflexivity.
  - cbn [t_data]. repeat constructor; assumption.
Qed.

End AnyInterpreter.

Section TestInterpreter.

#[local] Existing Instance Demo.reader.

(** C1, as stated, fails: an annotation whose xmin is 16777217, which is
    [2 ^ 24 + 1], comes back with the box entry 16777216. *)
Lemma C1_float32_rounds_large_coordinate :
  exists (b : element) (lbl : target) (x : spec_float) (rest : list spec_float),
    bndboxes (Demo.annotation "shorts" "16777217" "50" "20" "60") = [b]
    /\ coord_value "xmin" b = Some 16777217
    /\ __getitem__ Demo.wide (Demo.accessor Demo.wide "train" (PyInt 1)) 0 = Ok (tt, lbl)
    /\ t_data (boxes lbl) = x :: rest
    /\ (SF2Q x == inject_Z 16777216)%Q
    /\ ~ (SF2Q x == inject_Z 16777217)%Q.
Proof.
  do 4 eexists. split; [reflexivity|]. split; [reflexivity|].
  split; [vm_compute; reflexivity|]. split; [reflexivity|].
  split; [reflexivity | discriminate].
Qed.

End TestInterpreter.

Section AnyInterpreter.

Context `{interp : Interpreter}.

(** C1, amended: for an index [i] in range whose image opens, on which the
    transform returns, and whose annotation file is well formed (an [object]
    element, the first if there are several, whose first child holds the
    canonical name of a category [c], and whose [bndbox] child holds integers
    xmin, xmax, ymin, ymax between 0 and [2 ^ 24]), retrieval at [i] returns
    the image and a record whose [boxes] is a float32 tensor of shape (1, 4)
    with the values xmin, xmax, ymin, ymax and whose [labels] is an int64
    tensor of shape (1,) holding the code of [c]. The category
    [long_sleeve_dress], whose name the reverse table lacks, is left aside. *)
Theorem C1_retrieve_returns_annotation (Image : Type) (w : World Image)
  (self : RobotFashion Image) (i : Z) (image_path label_path : string)
  (image image' : Image) (xml o b : element) (name : string) (c : DF2)
  (x0 x1 y0 y1 : Z) :
  0 <= i ->
  nth_error (image_paths self) (Z.to_nat i) = Some image_path ->
  nth_error (label_paths self) (Z.to_nat i) = Some label_path ->
  Image_open w image_path = Ok image ->
  apply_transform (transform self) image = Ok image' ->
  ET_parse w label_path = Ok xml ->
  hd_error (objects xml) = Some o ->
  class_name o = Some name ->
  enum_to_name c = Ok name ->
  c <> long_sleeve_dress ->
  hd_error (children_tagged "bndbox" o) = Some b ->
  coord_value "xmin" b = Some x0 -> coord_value "xmax" b = Some x1 ->
  coord_value "ymin" b = Some y0 -> coord_value "ymax" b = Some y1 ->
  0 <= x0 <= 2 ^ 24 -> 0 <= x1 <= 2 ^ 24 ->
  0 <= y0 <= 2 ^ 24 -> 0 <= y1 <= 2 ^ 24 ->
  exists bx,
    __getitem__ w self i
    = Ok (image', {| boxes := bx;
                     labels := {| t_shape := [1%nat]; t_data := [value c] |} |})
    /\ t_shape bx = [1%nat; 4%nat]
    /\ Forall2 (fun f z => is_finite f = true /\ (SF2Q f == inject_Z z)%Q)
         (t_data bx) [x0; x1; y0; y1].
Proof.
  intros Hi Him Hlb Hopen Htr Hparse Ho Hname Hcn Hnot Hb C0 C1 C2 C3 B0 B1 B2 B3.
  pose proof (canonical_name_resolved c name Hcn Hnot) as Hc.
  destruct (load_label_well_formed Image w label_path xml o b name c x0 x1 y0 y1
              Hparse Ho Hname Hc Hb C0 C1 C2 C3 B0 B1 B2 B3) as (bx & Hl & Hs & Hv).
  exists bx. split; [|split; assumption].
  unfold __getitem__.
  rewrite (getitem_nth_error _ _ _ Hi Him). cbn [bind].
  unfold load_image. rewrite Hopen. cbn [bind].
  rewrite (getitem_nth_error _ _ _ Hi Hlb). cbn [bind].
  rewrite Hl. cbn [bind]. fold (apply_transform (transform self) image).
  rewrite Htr. reflexivity.
Qed.

End AnyInterpreter.

Section TestInterpreter.

#[local] Existing Instance Demo.reader.

(** The scenario of the specification: "shorts" (code 7) with the box
    [10, 50, 20, 60] at index 0. *)
Lemma C1_retrieve_returns_annotation_witness :
  exists bx,
    __getitem__ Demo.scenario (Demo.accessor Demo.scenario "train" (PyInt 1)) 0
    = Ok (tt, {| boxes := bx; labels := {| t_shape := [1%nat]; t_data := [7] |} |})
    /\ t_shape bx = [1%nat; 4%nat]
    /\ Forall2 (fun f z => is_finite f = true /\ (SF2Q f == inject_Z z)%Q)
         (t_data bx) [10; 50; 20; 60].
Proof.
  apply (C1_retrieve_returns_annotation unit Demo.scenario
           (Demo.accessor Demo.scenario "train" (PyInt 1)) 0
           "data/robotfashion_data_folder/train/images/a.jpg"
           "data/robotfashion_data_folder/train/annotations/a.xml"
           tt tt
           (Demo.annotation "shorts" "10" "50" "20" "60")
           (Element "object" None
              [Demo.leaf "name" "shorts"; Demo.bndbox "10" "50" "20" "60"])
           (Demo.bndbox "10" "50" "20" "60")
           "shorts" shorts 10 50 20 60);
    try reflexivity; try lia; discriminate.
Defined.

End TestInterpreter.

Section AnyInterpreter.

Context `{interp : Interpreter}.

(** ** Enumeration *)

Lemma ascii_compare_eq (a b : ascii) : N_of_ascii a = N_of_ascii b -> a = b.
Proof.
  intros H. rewrite <- (ascii_N_embedding a), <- (ascii_N_embedding b), H. reflexivity.
Qed.

Lemma str_leb_trans (s1 : string) :
  forall s2 s3, String.leb s1 s2 = true -> String.leb s2 s3 = true ->
                String.leb s1 s3 = true.
Proof.
  unfold String.leb.
  induction s1 as [|a s1 IH]; intros [|b s2] [|c s3]; cbn [String.compare];
    try reflexivity; try discriminate.
  unfold Ascii.compare.
  destruct (N.compare_spec (N_of_ascii a) (N_of_ascii b)) as [E1 | L1 | G1];
    destruct (N.compare_spec (N_of_ascii b) (N_of_ascii c)) as [E2 | L2 | G2];
    destruct (N.compare_spec (N_of_ascii a) (N_of_ascii c)) as [E3 | L3 | G3];
    try reflexivity; try discriminate; try lia.
  apply IH.
Qed.

Lemma StronglySorted_filter {A : Type} (R : A -> A -> Prop) (f : A -> bool)
  (l : list A) :
  StronglySorted R l -> StronglySorted R (filter f l).
Proof.
  induction 1 as [|a l Hl IH Ha]; cbn [filter]; [constructor|].
  destruct (f a); [|exact IH].
  constructor; [exact IH|].
  rewrite Forall_forall in *. intros x Hx. apply filter_In in Hx. apply Ha, Hx.
Qed.

Lemma Permutation_filter {A : Type} (f : A -> bool) (l l' : list A) :
  Permutation l l' -> Permutation (filter f l) (filter f l').
Proof.
  induction 1 as [| x l l' _ IH | x y l | l l' l'' _ IH1 _ IH2]; cbn [filter].
  - constructor.
  - destruct (f x); [constructor|]; exact IH.
  - destruct (f x), (f y); try apply Permutation_refl. apply perm_swap.
  - exact (Permutation_trans IH1 IH2).
Qed.

(** [sorted] gives the same names in increasing order. *)
Lemma sorted_spec (l : list string) :
  StronglySorted (fun a b => String.leb a b = true) (sorted l)
  /\ Permutation l (sorted l).
Proof.
  split.
  - apply StrSort.StronglySorted_sort. intros a b c. apply str_leb_trans.
  - apply StrSort.Permuted_sort.
Qed.

(** The files of a folder, as [load_data] lists them: increasing, and the
    names of the folder that are files. *)
Lemma sorted_names_spec (Image : Type) (w : World Image) (dir : string)
  (names : list string) :
  StronglySorted (fun a b => String.leb a b = true) (sorted_names w dir names)
  /\ Permutation (filter (fun f => isfile w (os_path_join dir f)) names)
       (sorted_names w dir names).
Proof.
  destruct (sorted_spec names) as [S P]. unfold sorted_names. split.
  - apply StronglySorted_filter, S.
  - apply Permutation_filter, P.
Qed.

Lemma sorted_files_listing (Image : Type) (w : World Image) (dir : string)
  (names : list string) :
  listdir w dir = Ok names ->
  sorted_files w dir = Ok (map (os_path_join dir) (sorted_names w dir names)).
Proof. intros H. unfold sorted_files. rewrite H. reflexivity. Qed.

Lemma load_data_listing (Image : Type) (w : World Image) (data_dir : string)
  (inames anames : list string) :
  let image_dir := os_path_join data_dir "images" in
  let annos_dir := os_path_join data_dir "annotations" in
  listdir w image_dir = Ok inames ->
  listdir w annos_dir = Ok anames ->
  load_data w data_dir =
  if Nat.eqb (List.length (sorted_names w image_dir inames))
       (List.length (sorted_names w annos_dir anames))
  then Ok (map (os_path_join image_dir) (sorted_names w image_dir inames),
           map (os_path_join annos_dir) (sorted_names w annos_dir anames))
  else Raise (ValueError "length of images and labels doesn't match").
Proof.
  intros image_dir annos_dir Hi Ha. unfold load_data.
  fold image_dir annos_dir.
  rewrite (sorted_files_listing _ _ _ _ Hi), (sorted_files_listing _ _ _ _ Ha).
  cbn [bind]. rewrite !length_map.
  destruct (Nat.eqb _ _); reflexivity.
Qed.

Lemma load_data_ok (Image : Type) (w : World Image) (data_dir : string)
  (ips lps : list string) :
  load_data w data_dir = Ok (ips, lps) ->
  exists inames anames,
    listdir w (os_path_join data_dir "images") = Ok inames
    /\ listdir w (os_path_join data_dir "annotations") = Ok anames
    /\ ips = map (os_path_join (os_path_join data_dir "images"))
               (sorted_names w (os_path_join data_dir "images") inames)
    /\ lps = map (os_path_join (os_path_join data_dir "annotations"))
               (sorted_names w (os_path_join data_dir "annotations") anames)
    /\ List.length ips = List.length lps.
Proof.
  unfold load_data, sorted_files.
  destruct (listdir w (os_path_join data_dir "images")) as [inames|]; [|discriminate].
  destruct (listdir w (os_path_join data_dir "annotations")) as [anames|]; [|discriminate].
  cbn [bind]. fold (sorted_names w (os_path_join data_dir "images") inames).
  fold (sorted_names w (os_path_join data_dir "annotations") anames).
  destruct (Nat.eqb _ _) eqn:E; cbn [negb]; [|discriminate].
  intros H. injection H as <- <-. exists inames, anames.
  repeat split; try reflexivity. apply Nat.eqb_eq, E.
Qed.

(** ** The reported length *)

Lemma binary_round_aux_not_negative (prec emax mx ex : Z) (lx : location) :
  not_negative (binary_round_aux prec emax false mx ex lx).
Proof.
  unfold binary_round_aux.
  destruct (shr_fexp prec emax mx ex lx) as [mrs e'].
  destruct (shr_fexp prec emax _ e' loc_Exact) as [mrs2 e2].
  destruct (shr_m mrs2); cbn; try exact I.
  destruct (e2 <=? emax - prec); exact I.
Qed.

Lemma f64_of_int_not_negative (n : Z) (y : spec_float) :
  0 <= n -> f64_of_int n = Ok y -> not_negative y.
Proof.
  intros Hn. unfold f64_of_int, binary_normalize.
  destruct n as [|p|p]; try lia.
  - intros H. injection H as <-. exact I.
  - unfold binary_round. destruct (shl_align _ _ _) as [mz ez].
    pose proof (binary_round_aux_not_negative prec64 emax64 (Zpos mz) ez loc_Exact) as N.
    destruct (binary_round_aux prec64 emax64 false (Zpos mz) ez loc_Exact);
      intros H; try discriminate H; injection H as <-; exact N.
Qed.

Lemma SFmul_not_negative (x y : spec_float) :
  not_negative x -> not_negative y -> not_negative (SFmul prec64 emax64 x y).
Proof.
  destruct x as [sx | sx | | sx mx ex], y as [sy | sy | | sy my ey];
    cbn [SFmul not_negative]; try exact (fun _ _ => I);
    try (destruct sx; intros [] ; fail); try (destruct sx, sy; intros Hx Hy;
      try destruct Hx; try destruct Hy; exact I).
  destruct sx, sy; intros Hx Hy; try destruct Hx; try destruct Hy.
  apply binary_round_aux_not_negative.
Qed.

Lemma int_of_f64_nonneg (x : spec_float) (z : Z) :
  not_negative x -> int_of_f64 x = Ok z -> 0 <= z.
Proof.
  destruct x as [s | s | | s m e]; cbn [int_of_f64 not_negative];
    intros N H; try discriminate H; injection H as <-; [lia|].
  destruct s; [destruct N|]. cbn [cond_Zopp]. apply Z.shiftl_nonneg. lia.
Qed.

Lemma ratio_ok_not_negative (x : spec_float) :
  ratio_ok (PyFloat x) = true -> not_negative x.
Proof.
  unfold ratio_ok, num_le_zero, num_gt_one, SFleb, SFltb, zero64.
  destruct x as [s | [|] | | [|] m e]; cbn; try exact (fun _ => I); discriminate.
Qed.

Lemma ratio_ok_int (z : Z) : ratio_ok (PyInt z) = true -> z = 1.
Proof.
  unfold ratio_ok, num_le_zero, num_gt_one. intros H.
  apply negb_true_iff, orb_false_elim in H. destruct H as [H1 H2].
  apply Z.leb_gt in H1. apply Z.ltb_ge in H2. lia.
Qed.

Lemma ratio_ok_le_one (x : spec_float) :
  ratio_ok (PyFloat x) = true -> SFltb one64 x = false.
Proof.
  unfold ratio_ok, num_gt_one. intros H.
  apply negb_true_iff, orb_false_elim in H. apply H.
Qed.

(** The reported length of an accepted ratio is never negative. *)
Lemma len_nonneg (Image : Type) (self : RobotFashion Image) (len : Z) :
  ratio_ok (subset_ratio self) = true -> __len__ self = Ok len -> 0 <= len.
Proof.
  unfold __len__. destruct (subset_ratio self) as [z | x]; intros Hr.
  - apply ratio_ok_int in Hr. subst z. cbn [num_mul_int bind int_of_num].
    intros H. injection H as <-.
    pose proof (Nat2Z.is_nonneg (List.length (image_paths self))) as N.
    destruct (Z.of_nat (List.length (image_paths self))); lia.
  - cbn [num_mul_int].
    destruct (f64_of_int (Z.of_nat (List.length (image_paths self)))) as [y|] eqn:E;
      [|discriminate].
    cbn [bind int_of_num]. apply int_of_f64_nonneg.
    apply SFmul_not_negative; [apply ratio_ok_not_negative, Hr|].
    apply (f64_of_int_not_negative _ _ (Nat2Z.is_nonneg _) E).
Qed.

Lemma SF2Q_nonneg (x : spec_float) : not_negative x -> (0 <= SF2Q x)%Q.
Proof.
  destruct x as [s | s | | [|] m e]; cbn [not_negative SF2Q cond_Zopp];
    intros N; try destruct N; try apply Qle_refl.
  destruct e as [|k|k]; unfold Qle; cbn [Qnum Qden inject_Z]; lia.
Qed.

(** [floor (f * n)] is not negative for an accepted ratio. *)
Lemma floor_nonneg (ratio : pynum) (n : Z) :
  ratio_ok ratio = true -> 0 <= n -> 0 <= Qfloor (num2Q ratio * inject_Z n).
Proof.
  intros Hr Hn. change 0 with (Qfloor 0). apply Qfloor_resp_le.
  apply Qmult_le_0_compat.
  - destruct ratio as [z | x]; cbn [num2Q].
    + apply ratio_ok_int in Hr. subst z. discriminate.
    + apply SF2Q_nonneg, ratio_ok_not_negative, Hr.
  - unfold Qle. cbn [Qnum Qden inject_Z]. lia.
Qed.

(** The length for a ratio whose product with the count is exact. *)
Lemma len_exact (Image : Type) (self : RobotFashion Image) :
  let n := Z.of_nat (List.length (image_paths self)) in
  ratio_ok (subset_ratio self) = true ->
  exact_product (subset_ratio self) n ->
  __len__ self = Ok (Qfloor (num2Q (subset_ratio self) * inject_Z n)).
Proof.
  intros n Hr Hx. unfold __len__. fold n.
  destruct (subset_ratio self) as [z | x].
  - cbn [num_mul_int bind int_of_num num2Q]. rewrite Qfloor_inject_mul. reflexivity.
  - pose proof (ratio_ok_le_one x Hr) as Hle.
    destruct x as [s | s | | [|] m e]; try destruct Hx.
    destruct H0 as (M & a & Ha & Hm & Hfit). cbn [num2Q].
    rewrite Qfloor_SF2Q_mul.
    assert (Hn : 0 <= n) by apply Nat2Z.is_nonneg.
    destruct n as [|p|p]; try lia.
    + rewrite Z.mul_0_r, Z.shiftl_0_l. reflexivity.
    + apply (mul_int_exact m M p a e H Hle Ha Hm Hfit).
Qed.

Lemma half64_floor (n : Z) : Qfloor (SF2Q half64 * inject_Z n) = n / 2.
Proof.
  unfold half64. rewrite Qfloor_SF2Q_mul.
  change (Z.shiftl (Z.pos (2 ^ 52) * n) (-53)) with (Z.shiftr (Z.pos (2 ^ 52) * n) 53).
  rewrite Z.shiftr_div_pow2 by lia.
  change (2 ^ 53) with (Z.pos (2 ^ 52) * 2).
  apply Z.div_mul_cancel_l; lia.
Qed.

Lemma half64_exact (n : Z) : n < 2 ^ 53 -> exact_product (PyFloat half64) n.
Proof.
  intros H. cbn [exact_product half64]. split; [reflexivity|].
  exists 1%positive, 52. repeat split; lia.
Qed.

(** ** Construction *)

Section Construction.

Context {Image : Type}.
Variable has_correct_folder_structure :
  World Image -> string -> list (string * string) -> string -> bool.
Variable maybe_download_and_unzip_data :
  World Image -> string -> list (string * string * string * Z) -> result (World Image).
Variable expanduser : string -> string.
Variable str_of_num : pynum -> string.

Local Abbreviation init :=
  (__init__ has_correct_folder_structure maybe_download_and_unzip_data
     expanduser str_of_num).
Local Abbreviation ensure :=
  (ensure_data has_correct_folder_structure maybe_download_and_unzip_data).

Lemma ensure_data_valid (w : World Image) (root : string) (download : bool) :
  has_correct_folder_structure w (_get_root_data_folder root) get_folders
    get_dataset_name = true ->
  ensure w root download = Ok w.
Proof. intros H. unfold ensure_data. rewrite H. reflexivity. Qed.

(** The constructor past the integrity check, for a mode that reads the
    folder [split]. *)
Lemma init_reads_split (w w1 : World Image) (working_path mode split : string)
  (download : bool) (ratio : pynum) (tr : option (Image -> result Image)) :
  ensure w (expanduser working_path) download = Ok w1 ->
  (mode = "train" /\ split = "train") \/ (mode = "val" /\ split = "validation") ->
  init w working_path mode download ratio tr =
  if ratio_ok ratio then
    paths <- load_data w1 (split_dir (expanduser working_path) split) ;;
    Ok (w1, {| root := expanduser working_path;
               transform := tr;
               subset_ratio := ratio;
               mode := mode;
               image_paths := fst paths;
               label_paths := snd paths |})
  else Raise (ValueError ("subset ratio " ++ str_of_num ratio
                          ++ " needs to be in (0, 1]")).
Proof.
  intros He Hm. unfold __init__. rewrite He. cbn [bind]. unfold ratio_ok.
  destruct Hm as [[-> ->] | [-> ->]]; cbn [str_in modes negb];
    destruct (num_le_zero ratio || num_gt_one ratio); reflexivity.
Qed.

(** What a successful construction tells. *)
Lemma init_ok_inv (w w1 : World Image) (working_path mode : string)
  (download : bool) (ratio : pynum) (tr : option (Image -> result Image))
  (self : RobotFashion Image) :
  init w working_path mode download ratio tr = Ok (w1, self) ->
  ratio_ok ratio = true
  /\ subset_ratio self = ratio
  /\ transform self = tr
  /\ exists split,
      ((mode = "train" /\ split = "train") \/ (mode = "val" /\ split = "validation"))
      /\ load_data w1 (split_dir (expanduser working_path) split)
         = Ok (image_paths self, label_paths self).
Proof.
  unfold __init__.
  destruct (ensure w (expanduser working_path) download) as [w'|]; [|discriminate].
  cbn [bind]. destruct (str_in mode modes) eqn:Hm; cbn [negb]; [|discriminate].
  unfold ratio_ok.
  destruct (num_le_zero ratio || num_gt_one ratio); cbn [negb]; [discriminate|].
  unfold train_mode, val_mode.
  destruct (String.eqb_spec mode "train") as [-> | Nt].
  - unfold load_train_data. fold (split_dir (expanduser working_path) "train").
    destruct (load_data w' (split_dir (expanduser working_path) "train"))
      as [[ips lps]|] eqn:L; [|discriminate].
    cbn [bind fst snd]. intros H. injection H as <- <-. cbn.
    repeat split. exists "train"%string. split; [left; split; reflexivity | exact L].
  - destruct (String.eqb_spec mode "val") as [-> | Nv].
    + unfold load_val_data. fold (split_dir (expanduser working_path) "validation").
      destruct (load_data w' (split_dir (expanduser working_path) "validation"))
        as [[ips lps]|] eqn:L; [|discriminate].
      cbn [bind fst snd]. intros H. injection H as <- <-. cbn.
      repeat split. exists "validation"%string.
      split; [right; split; reflexivity | exact L].
    + discriminate.
Qed.

(** C4, amended: with a data folder that passes the integrity check, the
    selector "validation" is refused with the bad-mode error, and the
    supported selector of the validation split is "val": construction with it
    raises no bad-mode error, reads the folder [validation] of the data
    folder, and can only fail on the subset ratio or inside [load_data]. *)
Theorem C4_val_selects_validation_folder (w : World Image) (working_path : string)
  (download : bool) (ratio : pynum) (tr : option (Image -> result Image)) :
  has_correct_folder_structure w (_get_root_data_folder (expanduser working_path))
    get_folders get_dataset_name = true ->
  init w working_path "validation" download ratio tr
  = Raise (ValueError "mode validation should be one of ['train', 'val', 'test']")
  /\ init w working_path "val" download ratio tr
     = if ratio_ok ratio then
         paths <- load_data w (split_dir (expanduser working_path) "validation") ;;
         Ok (w, {| root := expanduser working_path;
                   transform := tr;
                   subset_ratio := ratio;
                   mode := "val";
                   image_paths := fst paths;
                   label_paths := snd paths |})
       else Raise (ValueError ("subset ratio " ++ str_of_num ratio
                               ++ " needs to be in (0, 1]")).
Proof.
  intros H. split.
  - unfold __init__. rewrite (ensure_data_valid _ _ _ H). reflexivity.
  - apply init_reads_split; [apply ensure_data_valid, H | right; split; reflexivity].
Qed.

(** C8: in a mode that has labels, with the two folders of the split listed,
    the names kept from each folder are its files in increasing order of
    name; when the two counts differ the constructor raises the
    length-mismatch [ValueError]; otherwise the accessor holds the two lists
    of paths in that order, and retrieval at an index reads the image path
    and the annotation path at that same position. *)
Theorem C8_sorted_positional_pairing (w w1 : World Image)
  (working_path mode split : string) (download : bool) (ratio : pynum)
  (tr : option (Image -> result Image)) (inames anames : list string) :
  let data_dir := split_dir (expanduser working_path) split in
  let image_dir := os_path_join data_dir "images" in
  let annos_dir := os_path_join data_dir "annotations" in
  let ifiles := sorted_names w1 image_dir inames in
  let afiles := sorted_names w1 annos_dir anames in
  ensure w (expanduser working_path) download = Ok w1 ->
  (mode = "train" /\ split = "train") \/ (mode = "val" /\ split = "validation") ->
  ratio_ok ratio = true ->
  listdir w1 image_dir = Ok inames ->
  listdir w1 annos_dir = Ok anames ->
  (StronglySorted (fun a b => String.leb a b = true) ifiles
   /\ Permutation (filter (fun f => isfile w1 (os_path_join image_dir f)) inames) ifiles)
  /\ (StronglySorted (fun a b => String.leb a b = true) afiles
      /\ Permutation (filter (fun f => isfile w1 (os_path_join annos_dir f)) anames) afiles)
  /\ init w working_path mode download ratio tr
     = (if Nat.eqb (List.length ifiles) (List.length afiles)
        then Ok (w1, {| root := expanduser working_path;
                        transform := tr;
                        subset_ratio := ratio;
                        mode := mode;
                        image_paths := map (os_path_join image_dir) ifiles;
                        label_paths := map (os_path_join annos_dir) afiles |})
        else Raise (ValueError "length of images and labels doesn't match"))
  /\ (forall (self : RobotFashion Image) (i : Z) (ip lp : string),
         getitem (image_paths self) i = Ok ip ->
         getitem (label_paths self) i = Ok lp ->
         __getitem__ w1 self i
         = (image <- load_image w1 ip ;;
            label <- load_label w1 lp ;;
            image' <- apply_transform (transform self) image ;;
            Ok (image', label))).
Proof.
  intros data_dir image_dir annos_dir ifiles afiles He Hm Hr Hi Ha.
  split; [apply sorted_names_spec|]. split; [apply sorted_names_spec|]. split.
  - rewrite (init_reads_split w w1 working_path mode split download ratio tr He Hm), Hr.
    fold data_dir. rewrite (load_data_listing Image w1 data_dir inames anames Hi Ha).
    fold image_dir annos_dir ifiles afiles.
    destruct (Nat.eqb _ _); reflexivity.
  - intros self i ip lp Hip Hlp. unfold __getitem__, apply_transform.
    rewrite Hip. cbn [bind].
    destruct (load_image w1 ip); [cbn [bind] | reflexivity].
    rewrite Hlp. reflexivity.
Qed.

(** C5, amended: for a constructed accessor over [n] matched pairs, the
    reported length is [floor (f * n)] when [f] is an [int] (then it is 1,
    and the length is [n]) and when [f] is a float whose product with [n] is
    computed without rounding; so it is [floor (n / 2)] for [f = 0.5] and
    [n] below [2 ^ 53]. *)
Theorem C5_len_is_floor_when_exact (w w1 : World Image) (working_path mode : string)
  (download : bool) (ratio : pynum) (tr : option (Image -> result Image))
  (self : RobotFashion Image) :
  let n := Z.of_nat (List.length (image_paths self)) in
  init w working_path mode download ratio tr = Ok (w1, self) ->
  List.length (label_paths self) = List.length (image_paths self)
  /\ (exact_product ratio n -> __len__ self = Ok (Qfloor (num2Q ratio * inject_Z n)))
  /\ (ratio = PyInt 1 -> __len__ self = Ok n)
  /\ (ratio = PyFloat half64 -> n < 2 ^ 53 -> __len__ self = Ok (n / 2)).
Proof.
  intros n H.
  destruct (init_ok_inv _ _ _ _ _ _ _ _ H) as (Hr & Hs & _ & split & _ & Hl).
  destruct (load_data_ok _ _ _ _ _ Hl) as (_ & _ & _ & _ & _ & _ & Hlen).
  assert (E : forall r, r = ratio -> exact_product r n ->
                        __len__ self = Ok (Qfloor (num2Q r * inject_Z n))).
  { intros r -> Hx. rewrite <- Hs in Hx, Hr |- *. apply len_exact; assumption. }
  split; [symmetry; exact Hlen|]. split; [|split].
  - intros Hx. apply E; [reflexivity | exact Hx].
  - intros Hi. rewrite (E (PyInt 1) (eq_sym Hi) I). cbn [num2Q].
    rewrite Qfloor_inject_mul. f_equal. lia.
  - intros Hh Hn. rewrite (E (PyFloat half64) (eq_sym Hh) (half64_exact n Hn)).
    cbn [num2Q]. rewrite half64_floor. reflexivity.
Qed.

(** C9, amended: for a constructed accessor over [n] matched pairs, every
    index [i] from [floor (f * n)], or from the reported length, up to
    [n - 1] is still served, whatever the subset ratio: the two paths at
    position [i] of the sorted lists exist, retrieval at [i] is the load of
    that image and that annotation, and it returns that pair whenever the
    image opens, the transform returns and the annotation file is well formed
    (as in C1: an [object] element whose first child holds the canonical name
    of a category other than [long_sleeve_dress], with a [bndbox] child that
    holds integers xmin, xmax, ymin, ymax between 0 and [2 ^ 24]). *)
Theorem C9_retrieval_beyond_reported_length (w w1 : World Image)
  (working_path mode : string) (download : bool) (ratio : pynum)
  (tr : option (Image -> result Image)) (self : RobotFashion Image) (i : Z) :
  let n := Z.of_nat (List.length (image_paths self)) in
  init w working_path mode download ratio tr = Ok (w1, self) ->
  (Qfloor (num2Q ratio * inject_Z n) <= i
   \/ exists len, __len__ self = Ok len /\ len <= i) ->
  i < n ->
  exists (split : string) (inames anames : list string) (iname aname : string),
    let image_dir := os_path_join (split_dir (expanduser working_path) split) "images" in
    let annos_dir :=
      os_path_join (split_dir (expanduser working_path) split) "annotations" in
    listdir w1 image_dir = Ok inames
    /\ listdir w1 annos_dir = Ok anames
    /\ nth_error (sorted_names w1 image_dir inames) (Z.to_nat i) = Some iname
    /\ nth_error (sorted_names w1 annos_dir anames) (Z.to_nat i) = Some aname
    /\ __getitem__ w1 self i
       = (image <- load_image w1 (os_path_join image_dir iname) ;;
          label <- load_label w1 (os_path_join annos_dir aname) ;;
          image' <- apply_transform tr image ;;
          Ok (image', label))
    /\ forall (image image' : Image) (xml o b : element) (name : string) (c : DF2)
          (x0 x1 y0 y1 : Z),
        Image_open w1 (os_path_join image_dir iname) = Ok image ->
        apply_transform tr image = Ok image' ->
        ET_parse w1 (os_path_join annos_dir aname) = Ok xml ->
        hd_error (objects xml) = Some o ->
        class_name o = Some name ->
        enum_to_name c = Ok name ->
        c <> long_sleeve_dress ->
        hd_error (children_tagged "bndbox" o) = Some b ->
        coord_value "xmin" b = Some x0 -> coord_value "xmax" b = Some x1 ->
        coord_value "ymin" b = Some y0 -> coord_value "ymax" b = Some y1 ->
        0 <= x0 <= 2 ^ 24 -> 0 <= x1 <= 2 ^ 24 ->
        0 <= y0 <= 2 ^ 24 -> 0 <= y1 <= 2 ^ 24 ->
        exists bx,
          __getitem__ w1 self i
          = Ok (image', {| boxes := bx;
                           labels := {| t_shape := [1%nat]; t_data := [value c] |} |})
          /\ t_shape bx = [1%nat; 4%nat]
          /\ Forall2 (fun f z => is_finite f = true /\ (SF2Q f == inject_Z z)%Q)
               (t_data bx) [x0; x1; y0; y1].
Proof.
  intros n H Hlow Hi.
  destruct (init_ok_inv _ _ _ _ _ _ _ _ H) as (Hr & Hs & Ht & split & _ & Hl).
  destruct (load_data_ok _ _ _ _ _ Hl) as (inames & anames & Li & La & Ei & Ea & Hn).
  assert (H0 : 0 <= i).
  { destruct Hlow as [Hf | [len [Hlen Hle]]].
    - pose proof (floor_nonneg ratio n Hr (Nat2Z.is_nonneg _)). lia.
    - assert (0 <= len)
        by (apply (len_nonneg Image self); [rewrite Hs|]; assumption).
      lia. }
  destruct (getitem_in_range (image_paths self) i) as (ip & Nip & Gip); [lia|].
  destruct (getitem_in_range (label_paths self) i) as (lp & Nlp & Glp); [lia|].
  rewrite Ei in Nip. rewrite Ea in Nlp.
  rewrite nth_error_map in Nip, Nlp.
  destruct (nth_error (sorted_names w1 _ inames) (Z.to_nat i)) as [iname|] eqn:Ni;
    [|discriminate Nip].
  destruct (nth_error (sorted_names w1 _ anames) (Z.to_nat i)) as [aname|] eqn:Na;
    [|discriminate Nlp].
  cbn [option_map] in Nip, Nlp. injection Nip as Nip. injection Nlp as Nlp.
  exists split, inames, anames, iname, aname. cbn zeta.
  repeat (split; [assumption|]).
  assert (E : __getitem__ w1 self i
              = (image <- load_image w1 ip ;;
                 label <- load_label w1 lp ;;
                 image' <- apply_transform tr image ;;
                 Ok (image', label))).
  { unfold __getitem__. rewrite Gip, Glp, Ht. cbn [bind].
    unfold apply_transform. reflexivity. }
  rewrite Nip, Nlp. split; [exact E|].
  intros image image' xml o b name c x0 x1 y0 y1 Hopen Htr Hparse Ho Hname Hcn Hnot Hb
    C0 C1 C2 C3 B0 B1 B2 B3.
  pose proof (canonical_name_resolved c name Hcn Hnot) as Hc.
  destruct (load_label_well_formed Image w1 lp xml o b name c x0 x1 y0 y1
              Hparse Ho Hname Hc Hb C0 C1 C2 C3 B0 B1 B2 B3) as (bx & Hlab & Hsh & Hv).
  exists bx. split; [|split; assumption].
  rewrite E. unfold load_image. rewrite Hopen. cbn [bind]. rewrite Hlab. cbn [bind].
  rewrite Htr. reflexivity.
Qed.

End Construction.

End AnyInterpreter.

Section TestInterpreter.

#[local] Existing Instance Demo.reader.

(** ** The properties at work in the small world *)

(** C4, as stated, fails: with a data folder that passes the integrity
    check, the selector "validation" is refused. *)
Lemma C4_validation_selector_is_refused :
  Demo.folders_ok
    (Demo.world "validation" ["a.jpg"] ["a.xml"]
       (Demo.annotation "shorts" "10" "50" "20" "60"))
    (_get_root_data_folder "data") get_folders get_dataset_name = true
  /\ str_in "validation" modes = false
  /\ Demo.init
       (Demo.world "validation" ["a.jpg"] ["a.xml"]
          (Demo.annotation "shorts" "10" "50" "20" "60"))
       "validation" (PyInt 1)
     = Raise (ValueError "mode validation should be one of ['train', 'val', 'test']").
Proof. repeat split; reflexivity. Qed.

Lemma C4_val_selects_validation_folder_witness :
  Demo.init
    (Demo.world "validation" ["a.jpg"] ["a.xml"]
       (Demo.annotation "shorts" "10" "50" "20" "60"))
    "validation" (PyInt 1)
  = Raise (ValueError "mode validation should be one of ['train', 'val', 'test']")
  /\ Demo.init
       (Demo.world "validation" ["a.jpg"] ["a.xml"]
          (Demo.annotation "shorts" "10" "50" "20" "60"))
       "val" (PyInt 1)
     = Ok (Demo.world "validation" ["a.jpg"] ["a.xml"]
             (Demo.annotation "shorts" "10" "50" "20" "60"),
           {| root := "data"; transform := None; subset_ratio := PyInt 1; mode := "val";
              image_paths := ["data/robotfashion_data_folder/validation/images/a.jpg"];
              label_paths := ["data/robotfashion_data_folder/validation/annotations/a.xml"]
           |}).
Proof.
  destruct (C4_val_selects_validation_folder Demo.folders_ok Demo.no_download
              (fun s => s) Demo.str_of_num
              (Demo.world "validation" ["a.jpg"] ["a.xml"]
                 (Demo.annotation "shorts" "10" "50" "20" "60"))
              "data" false (PyInt 1) None eq_refl) as [H1 H2].
  split; [exact H1 | exact H2].
Defined.

(** C5, as stated, fails. With the float nearest to 0.7, which is below
    0.7, and ten pairs, the reported length is 7 and not
    [floor (f * 10) = 6]: the product is rounded to 7.0 before [int]. With
    the float nearest to 0.57 (within [2 ^ -54] of it) and a hundred pairs,
    the reported length is 56, and not the 57 that [floor (0.57 * 100)]
    gives for the decimal fraction. *)
Lemma C5_rounded_product_exceeds_floor :
  (exists self : RobotFashion unit,
      Demo.init
        (Demo.world "train" Demo.ten Demo.ten
           (Demo.annotation "shorts" "10" "50" "20" "60"))
        "train" (PyFloat Demo.f0_7)
      = Ok (Demo.world "train" Demo.ten Demo.ten
              (Demo.annotation "shorts" "10" "50" "20" "60"), self)
      /\ List.length (image_paths self) = 10%nat
      /\ List.length (label_paths self) = 10%nat
      /\ valid_binary prec64 emax64 Demo.f0_7 = true
      /\ (0 < SF2Q Demo.f0_7 <= 1)%Q
      /\ __len__ self = Ok 7
      /\ Qfloor (num2Q (PyFloat Demo.f0_7) * inject_Z 10) = 6)
  /\ (exists self : RobotFashion unit,
         Demo.init
           (Demo.world "train" Demo.hundred Demo.hundred
              (Demo.annotation "shorts" "10" "50" "20" "60"))
           "train" (PyFloat Demo.f0_57)
         = Ok (Demo.world "train" Demo.hundred Demo.hundred
                 (Demo.annotation "shorts" "10" "50" "20" "60"), self)
         /\ List.length (image_paths self) = 100%nat
         /\ List.length (label_paths self) = 100%nat
         /\ valid_binary prec64 emax64 Demo.f0_57 = true
         /\ (Qabs (SF2Q Demo.f0_57 - (57 # 100)) <= 1 # (2 ^ 54))%Q
         /\ __len__ self = Ok 56
         /\ Qfloor ((57 # 100) * inject_Z 100) = 57).
Proof.
  split.
  - eexists. split; [vm_compute; reflexivity|].
    repeat split; try reflexivity; discriminate.
  - eexists. split; [vm_compute; reflexivity|].
    repeat split; try (vm_compute; reflexivity); vm_compute; discriminate.
Qed.

Lemma C5_len_is_floor_when_exact_witness :
  __len__ (Demo.accessor
             (Demo.world "train" Demo.ten Demo.ten
                (Demo.annotation "shorts" "10" "50" "20" "60"))
             "train" (PyFloat half64)) = Ok 5.
Proof.
  destruct (C5_len_is_floor_when_exact Demo.folders_ok Demo.no_download
              (fun s => s) Demo.str_of_num
              (Demo.world "train" Demo.ten Demo.ten
                 (Demo.annotation "shorts" "10" "50" "20" "60"))
              (Demo.world "train" Demo.ten Demo.ten
                 (Demo.annotation "shorts" "10" "50" "20" "60"))
              "data" "train" false (PyFloat half64) None
              (Demo.accessor
                 (Demo.world "train" Demo.ten Demo.ten
                    (Demo.annotation "shorts" "10" "50" "20" "60"))
                 "train" (PyFloat half64))
              eq_refl) as (_ & _ & _ & H).
  exact (H eq_refl eq_refl).
Defined.

Lemma C8_sorted_positional_pairing_witness :
  Demo.init Demo.scenario "train" (PyInt 1)
  = Ok (Demo.scenario,
        {| root := "data"; transform := None; subset_ratio := PyInt 1; mode := "train";
           image_paths := ["data/robotfashion_data_folder/train/images/a.jpg";
                           "data/robotfashion_data_folder/train/images/b.jpg"];
           label_paths := ["data/robotfashion_data_folder/train/annotations/a.xml";
                           "data/robotfashion_data_folder/train/annotations/b.xml"] |})
  /\ Demo.init
       (Demo.world "train" ["b.jpg"; "a.jpg"] ["a.xml"]
          (Demo.annotation "shorts" "10" "50" "20" "60"))
       "train" (PyInt 1)
     = Raise (ValueError "length of images and labels doesn't match").
Proof.
  split.
  - destruct (C8_sorted_positional_pairing Demo.folders_ok Demo.no_download
                (fun s => s) Demo.str_of_num Demo.scenario Demo.scenario
                "data" "train" "train" false (PyInt 1) None
                ["b.jpg"; "a.jpg"] ["b.xml"; "a.xml"]
                eq_refl (or_introl (conj eq_refl eq_refl)) eq_refl eq_refl eq_refl)
      as (_ & _ & H & _).
    exact H.
  - destruct (C8_sorted_positional_pairing Demo.folders_ok Demo.no_download
                (fun s => s) Demo.str_of_num
                (Demo.world "train" ["b.jpg"; "a.jpg"] ["a.xml"]
                   (Demo.annotation "shorts" "10" "50" "20" "60"))
                (Demo.world "train" ["b.jpg"; "a.jpg"] ["a.xml"]
                   (Demo.annotation "shorts" "10" "50" "20" "60"))
                "data" "train" "train" false (PyInt 1) None
                ["b.jpg"; "a.jpg"] ["a.xml"]
                eq_refl (or_introl (conj eq_refl eq_refl)) eq_refl eq_refl eq_refl)
      as (_ & _ & H & _).
    exact H.
Defined.

(** C9, as stated, fails: two matched pairs and the ratio 0.5 give the
    reported length 1, and retrieval at index 1 raises, because the
    annotation file there has no [object] element. *)
Lemma C9_retrieval_beyond_length_raises :
  Demo.init Demo.blank "train" (PyFloat half64)
  = Ok (Demo.blank, Demo.accessor Demo.blank "train" (PyFloat half64))
  /\ List.length (image_paths (Demo.accessor Demo.blank "train" (PyFloat half64)))
     = 2%nat
  /\ List.length (label_paths (Demo.accessor Demo.blank "train" (PyFloat half64)))
     = 2%nat
  /\ Qfloor (num2Q (PyFloat half64) * inject_Z 2) = 1
  /\ __len__ (Demo.accessor Demo.blank "train" (PyFloat half64)) = Ok 1
  /\ __getitem__ Demo.blank (Demo.accessor Demo.blank "train" (PyFloat half64)) 1
     = Raise (ValueError "no bounding box in xml").
Proof. repeat split; reflexivity. Qed.

(** Two pairs and the ratio 0.5: the reported length is 1, and retrieval at
    index 1 returns the second pair, "shorts" (code 7) with the box
    [10, 50, 20, 60]. *)
Lemma C9_retrieval_beyond_reported_length_witness :
  __len__ (Demo.accessor Demo.scenario "train" (PyFloat half64)) = Ok 1
  /\ exists bx,
       __getitem__ Demo.scenario (Demo.accessor Demo.scenario "train" (PyFloat half64)) 1
       = Ok (tt, {| boxes := bx; labels := {| t_shape := [1%nat]; t_data := [7] |} |})
       /\ t_shape bx = [1%nat; 4%nat]
       /\ Forall2 (fun f z => is_finite f = true /\ (SF2Q f == inject_Z z)%Q)
            (t_data bx) [10; 50; 20; 60].
Proof.
  split; [reflexivity|].
  destruct (C9_retrieval_beyond_reported_length Demo.folders_ok Demo.no_download
              (fun s => s) Demo.str_of_num Demo.scenario Demo.scenario
              "data" "train" false (PyFloat half64) None
              (Demo.accessor Demo.scenario "train" (PyFloat half64)) 1
              eq_refl (or_intror (ex_intro _ 1 (conj eq_refl (Z.le_refl 1)))) eq_refl)
    as (split & inames & anames & iname & aname & _ & _ & _ & _ & _ & S).
  apply (S tt tt (Demo.annotation "shorts" "10" "50" "20" "60")
           (Element "object" None
              [Demo.leaf "name" "shorts"; Demo.bndbox "10" "50" "20" "60"])
           (Demo.bndbox "10" "50" "20" "60")
           "shorts" shorts 10 50 20 60);
    try reflexivity; try lia; discriminate.
Defined.

End TestInterpreter.

Section AnyInterpreter.

Context `{interp : Interpreter}.

(** * Further properties *)

(** ** Rounding a product: an upper bound *)

Lemma shr_1_m (r : shr_record) :
  0 <= shr_m r -> shr_m (shr_1 r) = shr_m r / 2 /\ 0 <= shr_m (shr_1 r).
Proof.
  destruct r as [m b s]. cbn [shr_m]. intros H.
  rewrite <- Z.div2_div.
  destruct m as [|[p|p|]|p]; try lia; cbn [shr_1 shr_m Z.div2]; split;
    try reflexivity; lia.
Qed.

Lemma iter_shr_1_m (k : positive) (r : shr_record) :
  0 <= shr_m r ->
  shr_m (Pos.iter shr_1 r k) = shr_m r / 2 ^ Zpos k /\ 0 <= shr_m (Pos.iter shr_1 r k).
Proof.
  intros H. induction k as [|k IH] using Pos.peano_ind.
  - cbn [Pos.iter]. change (2 ^ 1) with 2. apply shr_1_m, H.
  - rewrite Pos.iter_succ. destruct IH as [E P].
    destruct (shr_1_m _ P) as [E' P']. split; [|exact P'].
    rewrite E', E, Pos2Z.inj_succ, Z.pow_succ_r, Z.div_div by lia.
    f_equal. lia.
Qed.

Lemma shr_spec (r r' : shr_record) (e e' n : Z) :
  0 <= shr_m r -> shr r e n = (r', e') ->
  shr_m r' = shr_m r / 2 ^ Z.max 0 n /\ 0 <= shr_m r' /\ e' = e + Z.max 0 n.
Proof.
  intros H. unfold shr. destruct n as [|k|k]; intros E; injection E as <- <-.
  - cbn. rewrite Z.div_1_r. lia.
  - rewrite iter_pos_iter. destruct (iter_shr_1_m k r H) as [A B].
    rewrite Z.max_r by lia. lia.
  - cbn. rewrite Z.div_1_r. lia.
Qed.

Lemma round_nearest_even_bounds (m : Z) (l : location) :
  m <= round_nearest_even m l <= m + 1.
Proof.
  destruct l as [|[| |]]; cbn [round_nearest_even]; try lia.
  destruct (Z.even m); lia.
Qed.

Lemma shiftl_le_of_scaled (q K a B : Z) :
  0 <= K -> 0 <= a -> q * 2 ^ K <= B * 2 ^ a -> Z.shiftl q (K - a) <= B.
Proof.
  intros HK Ha H.
  replace (K - a) with (K + - a) by lia.
  rewrite <- shiftl_mul_pow2_add by lia.
  destruct a as [|a|a]; try lia.
  - cbn [Z.opp Z.shiftl]. lia.
  - change (Z.shiftl (q * 2 ^ K) (- Z.pos a)) with (Z.shiftr (q * 2 ^ K) (Z.pos a)).
    rewrite Z.shiftr_div_pow2 by lia.
    apply Z.div_le_upper_bound; [apply Z.pow_pos_nonneg; lia | lia].
Qed.

Section Upper.
Variables prec emax : Z.

Lemma binary_round_aux_int_le (m : positive) (e B z : Z) :
  Z.max e (fexp prec emax (Zdigits2 (Zpos m) + e)) <= 0 ->
  Zpos m <= B * 2 ^ (- e) ->
  int_of_f64 (binary_round_aux prec emax false (Zpos m) e loc_Exact) = Ok z ->
  z <= B.
Proof.
  intros He1 Hm.
  set (n1 := fexp prec emax (Zdigits2 (Zpos m) + e) - e).
  set (K1 := Z.max 0 n1).
  set (a := - (e + K1)).
  assert (Ha : 0 <= a) by (unfold a, K1, n1; lia).
  assert (HK1 : 0 <= K1) by (unfold K1; lia).
  assert (Hpow : 2 ^ (- e) = 2 ^ a * 2 ^ K1).
  { rewrite <- Z.pow_add_r by lia. f_equal. unfold a. lia. }
  assert (HB : 1 <= B).
  { assert (0 < 2 ^ (- e)) by (apply Z.pow_pos_nonneg; lia). nia. }
  assert (P2 : 0 < 2 ^ K1) by (apply Z.pow_pos_nonneg; lia).
  assert (Pa : 0 < 2 ^ a) by (apply Z.pow_pos_nonneg; lia).
  unfold binary_round_aux, shr_fexp. fold n1.
  destruct (shr (shr_record_of_loc (Z.pos m) loc_Exact) e n1) as [mrs1 e1] eqn:S1.
  assert (Hm2 : 0 <= round_nearest_even (shr_m mrs1) (loc_of_shr_record mrs1) <= B * 2 ^ a
                /\ e1 = - a).
  { destruct (shr_spec _ _ _ _ _ (Pos2Z.is_nonneg m : 0 <= shr_m (shr_record_of_loc (Zpos m) loc_Exact)) S1)
      as (E1 & P1 & Ee). fold K1 in E1, Ee. cbn [shr_record_of_loc shr_m] in E1.
    split; [|unfold a; lia].
    pose proof (round_nearest_even_bounds (shr_m mrs1) (loc_of_shr_record mrs1)) as R.
    split; [lia|].
    assert (Hle : shr_m mrs1 <= B * 2 ^ a).
    { rewrite E1. apply Z.div_le_upper_bound; [lia | nia]. }
    destruct (Z.eq_dec (Zpos m mod 2 ^ K1) 0) as [D | D].
    - (* exact *)
      assert (X : loc_of_shr_record mrs1 = loc_Exact).
      { unfold shr in S1. destruct n1 as [|k|k] eqn:En; try (injection S1 as <- _; reflexivity).
        assert (Zpos m = (Zpos m / 2 ^ Zpos k) * 2 ^ Zpos k).
        { unfold K1 in D. rewrite Z.max_r in D by lia.
          rewrite (Z.div_mod (Zpos m) (2 ^ Zpos k)) at 1 by lia. lia. }
        rewrite iter_pos_iter in S1. cbn [shr_record_of_loc] in S1.
        rewrite H, iter_shr_1_exact in S1. injection S1 as <- _. reflexivity. }
      rewrite X. cbn [round_nearest_even]. exact Hle.
    - assert (shr_m mrs1 < B * 2 ^ a); [|lia].
      rewrite E1. apply Z.div_lt_upper_bound; [lia|].
      assert (Zpos m <> 2 ^ K1 * (B * 2 ^ a)).
      { intros F. apply D. rewrite F, Z.mul_comm. apply Z.mod_mul. lia. }
      nia. }
  destruct Hm2 as [[L2 U2] Ee1].
  set (m2 := round_nearest_even (shr_m mrs1) (loc_of_shr_record mrs1)) in *.
  destruct (shr (shr_record_of_loc m2 loc_Exact) e1 _) as [mrs2 e2] eqn:S2.
  assert (N2 : 0 <= shr_m (shr_record_of_loc m2 loc_Exact)) by exact L2.
  destruct (shr_spec _ _ _ _ _ N2 S2) as (E2 & P2' & Ee2).
  cbn [shr_record_of_loc shr_m] in E2.
  set (K2 := Z.max 0 (fexp prec emax (Zdigits2 m2 + e1) - e1)) in *.
  assert (HK2 : 0 <= K2) by (unfold K2; lia).
  destruct (shr_m mrs2) as [|q|q] eqn:Eq; cbn [int_of_f64].
  - intros H. injection H as <-. lia.
  - destruct (e2 <=? emax - prec); cbn [int_of_f64]; [|discriminate].
    intros H. injection H as <-. cbn [cond_Zopp].
    replace e2 with (K2 - a) by lia.
    apply shiftl_le_of_scaled; try lia.
    assert (0 < 2 ^ K2) by (apply Z.pow_pos_nonneg; lia).
    assert (Zpos q * 2 ^ K2 <= m2); [|lia].
    rewrite E2, Z.mul_comm. apply Z.mul_div_le. lia.
  - discriminate.
Qed.
End Upper.

Lemma le_one64_mantissa (mf : positive) (ef : Z) :
  valid_binary prec64 emax64 (S754_finite false mf ef) = true ->
  SFltb one64 (S754_finite false mf ef) = false ->
  ef <= -52 /\ Zpos mf <= 2 ^ (- ef).
Proof.
  intros Hv Hle. pose proof (le_one64_exp _ _ Hle) as He.
  destruct (valid64_bounds _ _ Hv) as [_ Hd]. split; [exact He|].
  destruct (Z.eq_dec ef (-52)) as [E | N].
  - subst ef. unfold SFltb, SFcompare, one64 in Hle.
    change (-52 ?= -52) with Eq in Hle.
    rewrite Pos.compare_cont_spec in Hle. cbn [Pos.switch_Eq] in Hle.
    destruct (Pos.compare_spec (2 ^ 52) mf) as [C|C|C]; try discriminate Hle.
    + rewrite <- C. cbn. lia.
    + change (2 ^ (- -52)) with (Zpos (2 ^ 52)). lia.
  - apply (Zdigits2_bound mf 53) in Hd; [|lia].
    assert (2 ^ 53 <= 2 ^ (- ef)) by (apply Z.pow_le_mono_r; lia). lia.
Qed.

(** The truncated product of a float in (0, 1] and a positive int is at most
    the int. *)
Lemma mul_int_le (mf p : positive) (ef z : Z) :
  valid_binary prec64 emax64 (S754_finite false mf ef) = true ->
  SFltb one64 (S754_finite false mf ef) = false ->
  Zpos p < 2 ^ 53 ->
  (v <- num_mul_int (PyFloat (S754_finite false mf ef)) (Zpos p) ;; int_of_num v) = Ok z ->
  z <= Zpos p.
Proof.
  intros Hv Hle Hp.
  destruct (le_one64_mantissa _ _ Hv Hle) as [He Hm].
  set (d := Zdigits2 (Zpos p)).
  assert (Hd : 1 <= d <= 53).
  { split; [apply Zdigits2_pos | apply Zdigits2_bound; lia]. }
  unfold num_mul_int. rewrite f64_of_int_exact by exact Hp. fold d.
  cbn [bind int_of_num SFmul xorb].
  set (my := Z.to_pos (Zpos p * 2 ^ (53 - d))).
  assert (Hmy : Zpos my = Zpos p * 2 ^ (53 - d)) by (apply mul_pow2_pos; lia).
  set (e := ef + (d - 53)).
  assert (Hpow : 2 ^ (- e) = 2 ^ (- ef) * 2 ^ (53 - d)).
  { rewrite <- Z.pow_add_r by lia. f_equal. unfold e. lia. }
  assert (P1 : 0 < 2 ^ (53 - d)) by (apply Z.pow_pos_nonneg; lia).
  assert (P2 : 0 < 2 ^ (- ef)) by (apply Z.pow_pos_nonneg; lia).
  assert (Hprod : Zpos (mf * my) <= Zpos p * 2 ^ (- e)).
  { rewrite Pos2Z.inj_mul, Hmy, Hpow. nia. }
  apply binary_round_aux_int_le; [|exact Hprod].
  assert (Hdig : Zdigits2 (Zpos (mf * my)) <= 53 - e).
  { apply Zdigits2_bound; [unfold e; lia|].
    replace (53 - e) with (53 + - e) by lia. rewrite Z.pow_add_r by (unfold e; lia).
    assert (0 < 2 ^ (- e)) by (apply Z.pow_pos_nonneg; unfold e; lia). nia. }
  unfold fexp, emin, prec64, emax64. unfold e in *. lia.
Qed.

(** ** More on the annotation readers *)

Lemma extract_bb_ok_inv (b : element) (l : list Z) :
  extract_bb b = Ok l ->
  exists x0 x1 y0 y1,
    l = [x0; x1; y0; y1] /\ 0 <= x0 /\ 0 <= x1 /\ 0 <= y0 /\ 0 <= y1.
Proof.
  unfold extract_bb.
  destruct (extract_bb_loop (children b) _) as [st|]; cbn [bind]; [|discriminate].
  destruct ((xmin st <? 0) || (xmax st <? 0) || (ymin st <? 0) || (ymax st <? 0)) eqn:E;
    [discriminate|].
  intros H. injection H as <-.
  apply orb_false_elim in E. destruct E as [E E3].
  apply orb_false_elim in E. destruct E as [E E2].
  apply orb_false_elim in E. destruct E as [E0 E1].
  apply Z.ltb_ge in E0, E1, E2, E3.
  exists (xmin st), (xmax st), (ymin st), (ymax st). repeat split; assumption.
Qed.

(** X1: a box that [extract_bb] returns is a list of exactly four integers,
    [xmin, xmax, ymin, ymax] in this order, none of them negative: the
    placeholder -1 of an unread coordinate is never returned. *)
Theorem extract_bb_returns_four_non_negative (b : element) (l : list Z) :
  extract_bb b = Ok l ->
  exists x0 x1 y0 y1,
    l = [x0; x1; y0; y1] /\ 0 <= x0 /\ 0 <= x1 /\ 0 <= y0 /\ 0 <= y1.
Proof. apply extract_bb_ok_inv. Qed.

End AnyInterpreter.

Section TestInterpreter.

#[local] Existing Instance Demo.reader.

Lemma extract_bb_returns_four_non_negative_witness :
  extract_bb (Demo.bndbox "10" "50" "20" "60") = Ok [10; 50; 20; 60]
  /\ exists x0 x1 y0 y1,
       [10; 50; 20; 60] = [x0; x1; y0; y1] /\ 0 <= x0 /\ 0 <= x1 /\ 0 <= y0 /\ 0 <= y1.
Proof.
  split; [reflexivity|].
  apply (extract_bb_returns_four_non_negative (Demo.bndbox "10" "50" "20" "60")).
  reflexivity.
Defined.

End TestInterpreter.

Section AnyInterpreter.

Context `{interp : Interpreter}.

Lemma extract_bb_step_other (st : bb_state) (c : element) :
  is_coord_tag (tag c) = false -> extract_bb_step st c = Ok st.
Proof.
  unfold is_coord_tag, coord_tags. cbn [existsb]. intros H.
  apply orb_false_elim in H. destruct H as [H0 H].
  apply orb_false_elim in H. destruct H as [H1 H].
  apply orb_false_elim in H. destruct H as [H2 H].
  apply orb_false_elim in H. destruct H as [H3 _].
  unfold extract_bb_step. rewrite H0, H1, H2, H3. destruct st as [a0 a1 a2 a3]. reflexivity.
Qed.

Lemma extract_bb_loop_coord_children (cs : list element) :
  forall st, extract_bb_loop cs st = extract_bb_loop (coord_children cs) st.
Proof.
  induction cs as [|c cs IH]; intros st; [reflexivity|].
  cbn [coord_children filter]. fold (coord_children cs).
  destruct (is_coord_tag (tag c)) eqn:E; cbn [extract_bb_loop].
  - destruct (extract_bb_step st c); cbn [bind]; [apply IH | reflexivity].
  - rewrite extract_bb_step_other by exact E. cbn [bind]. apply IH.
Qed.

(** X2: [extract_bb] reads only the children tagged xmin, xmax, ymin or ymax:
    the tag and text of the element itself and every other child (with all
    that is below it) change neither the box nor the exception. *)
Theorem extract_bb_reads_coordinate_children_only (t t' : string)
  (x x' : option string) (cs : list element) :
  extract_bb (Element t x cs) = extract_bb (Element t' x' (coord_children cs)).
Proof.
  unfold extract_bb. cbn [children].
  rewrite (extract_bb_loop_coord_children cs). reflexivity.
Qed.

Lemma extract_bb_loop_app (cs1 cs2 : list element) :
  forall st,
    extract_bb_loop (cs1 ++ cs2) st
    = (st' <- extract_bb_loop cs1 st ;; extract_bb_loop cs2 st').
Proof.
  induction cs1 as [|c cs1 IH]; intros st; [reflexivity|].
  cbn [app extract_bb_loop].
  destruct (extract_bb_step st c); cbn [bind]; [apply IH | reflexivity].
Qed.

(** Once a later child tagged [t] is met, what the local [t] held before is
    forgotten. *)
Lemma extract_bb_loop_forget (t : string) (cs : list element) :
  In t coord_tags -> existsb (has_tag t) cs = true ->
  forall st1 st2,
    (t = "xmin" \/ xmin st1 = xmin st2) -> (t = "xmax" \/ xmax st1 = xmax st2) ->
    (t = "ymin" \/ ymin st1 = ymin st2) -> (t = "ymax" \/ ymax st1 = ymax st2) ->
    extract_bb_loop cs st1 = extract_bb_loop cs st2.
Proof.
  intros Hin. induction cs as [|c cs IH]; cbn [existsb]; [discriminate|].
  intros Hex st1 st2 A0 A1 A2 A3. cbn [extract_bb_loop].
  destruct (has_tag t c) eqn:Ht.
  - assert (S : extract_bb_step st1 c = extract_bb_step st2 c).
    { unfold has_tag in Ht. apply String.eqb_eq in Ht.
      unfold extract_bb_step. rewrite Ht.
      destruct Hin as [<-|[<-|[<-|[<-|[]]]]]; cbn [String.eqb Ascii.eqb Bool.eqb];
        destruct A0 as [A0|A0]; try discriminate A0;
        destruct A1 as [A1|A1]; try discriminate A1;
        destruct A2 as [A2|A2]; try discriminate A2;
        destruct A3 as [A3|A3]; try discriminate A3;
        destruct st1 as [a0 a1 a2 a3], st2 as [b0 b1 b2 b3];
        cbn [xmin xmax ymin ymax] in *; subst; reflexivity. }
    rewrite S. reflexivity.
  - cbn [orb] in Hex.
    destruct (coord_tag_cases c) as [(H0 & H1 & H2 & H3)|[(H0 & H1 & H2 & H3)
      |[(H0 & H1 & H2 & H3)|[(H0 & H1 & H2 & H3)|(H0 & H1 & H2 & H3)]]]];
      unfold extract_bb_step; unfold has_tag in H0, H1, H2, H3;
      rewrite H0, H1, H2, H3; cbn [bind].
    + destruct (int (text c)); cbn [bind]; [|reflexivity].
      apply IH; cbn [xmin xmax ymin ymax]; auto.
    + destruct (int (text c)); cbn [bind]; [|reflexivity].
      apply IH; cbn [xmin xmax ymin ymax]; auto.
    + destruct (int (text c)); cbn [bind]; [|reflexivity].
      apply IH; cbn [xmin xmax ymin ymax]; auto.
    + destruct (int (text c)); cbn [bind]; [|reflexivity].
      apply IH; cbn [xmin xmax ymin ymax]; auto.
    + apply IH; cbn [xmin xmax ymin ymax]; auto.
Qed.

(** X3: when a bndbox gives a coordinate tag more than once the last child
    with that tag decides: an earlier child with the tag whose text is an
    integer (of any value, also a negative one) can be removed without
    changing the box or the exception. *)
Theorem extract_bb_last_repeated_tag_wins (tg : string) (tx : option string)
  (cs1 cs2 : list element) (c1 : element) (t : string) (z : Z) :
  In t coord_tags -> has_tag t c1 = true -> int (text c1) = Ok z ->
  existsb (has_tag t) cs2 = true ->
  extract_bb (Element tg tx (cs1 ++ c1 :: cs2)) = extract_bb (Element tg tx (cs1 ++ cs2)).
Proof.
  intros Hin Ht Hz Hex. unfold extract_bb. cbn [children].
  rewrite !extract_bb_loop_app.
  destruct (extract_bb_loop cs1 _) as [st|]; cbn [bind]; [|reflexivity].
  cbn [extract_bb_loop].
  assert (S : exists st', extract_bb_step st c1 = Ok st'
                          /\ (t = "xmin" \/ xmin st' = xmin st)
                          /\ (t = "xmax" \/ xmax st' = xmax st)
                          /\ (t = "ymin" \/ ymin st' = ymin st)
                          /\ (t = "ymax" \/ ymax st' = ymax st)).
  { unfold has_tag in Ht. apply String.eqb_eq in Ht.
    unfold extract_bb_step. rewrite Ht, Hz.
    destruct Hin as [<-|[<-|[<-|[<-|[]]]]]; cbn [String.eqb Ascii.eqb Bool.eqb bind];
      eexists; (split; [reflexivity|]); cbn [xmin xmax ymin ymax]; auto. }
  destruct S as (st' & S & A0 & A1 & A2 & A3). rewrite S. cbn [bind].
  rewrite (extract_bb_loop_forget t cs2 Hin Hex st' st A0 A1 A2 A3). reflexivity.
Qed.

End AnyInterpreter.

Section TestInterpreter.

#[local] Existing Instance Demo.reader.

Lemma extract_bb_last_repeated_tag_wins_witness :
  extract_bb Demo.bndbox_twice = Ok [10; 50; 20; 60]
  /\ extract_bb Demo.bndbox_twice = extract_bb (Demo.bndbox "10" "50" "20" "60").
Proof.
  split; [reflexivity|].
  pose (rest := [Demo.leaf "xmax" "50"; Demo.leaf "xmin" "10"; Demo.leaf "ymin" "20";
                 Demo.leaf "ymax" "60"]).
  refine (eq_trans
            (extract_bb_last_repeated_tag_wins "bndbox" None [] rest
               (Demo.leaf "xmin" "-5") "xmin" (-5) _ _ _ _) _).
  - simpl. auto.
  - reflexivity.
  - reflexivity.
  - reflexivity.
  - reflexivity.
Defined.

End TestInterpreter.

Section AnyInterpreter.

Context `{interp : Interpreter}.

(** X4: on a file that parses, [get_class_from_xml] is decided by the first
    [object] child of the root alone: [ValueError] "no name in xml" when there
    is none, [IndexError] when it has no child, [KeyError] on the text of its
    first child when that is no key of [name_to_df2_enum], the code of the
    category otherwise. A later [object] is never consulted, also when the
    first one fails. *)
Theorem get_class_from_xml_cases (Image : Type) (w : World Image) (p : string)
  (xml : element) :
  ET_parse w p = Ok xml ->
  get_class_from_xml w p =
  match objects xml with
  | [] => Raise (ValueError "no name in xml")
  | o :: _ =>
      match children o with
      | [] => Raise IndexError
      | c :: _ =>
          match name_to_enum (text c) with
          | Ok d => Ok (value d)
          | Raise _ => Raise (KeyError (text c))
          end
      end
  end.
Proof.
  intros P. unfold get_class_from_xml. rewrite P. cbn [bind].
  rewrite get_class_loop_root. destruct (objects xml) as [|o os]; [reflexivity|].
  unfold class_of_object. destruct (children o) as [|c cs].
  - rewrite getitem_nil. reflexivity.
  - rewrite getitem_head. cbn [bind]. unfold name_to_enum.
    destruct (text c) as [s|]; [|reflexivity].
    destruct (dict_get String.eqb name_to_df2_enum s); reflexivity.
Qed.

End AnyInterpreter.

Section TestInterpreter.

#[local] Existing Instance Demo.reader.

Lemma get_class_from_xml_cases_witness :
  get_class_from_xml (Demo.world "train" [] [] Demo.two_objects) "a.xml" = Ok 7.
Proof.
  rewrite (get_class_from_xml_cases unit _ "a.xml" Demo.two_objects); reflexivity.
Defined.

End TestInterpreter.

Section AnyInterpreter.

Context `{interp : Interpreter}.

Lemma get_class_ok_inv (Image : Type) (w : World Image) (p : string) (z : Z) :
  get_class_from_xml w p = Ok z -> exists c, z = value c.
Proof.
  unfold get_class_from_xml. destruct (ET_parse w p) as [xml|]; cbn [bind]; [|discriminate].
  rewrite get_class_loop_root. destruct (objects xml) as [|o os]; [discriminate|].
  unfold class_of_object. destruct (getitem (children o) 0) as [c|]; cbn [bind];
    [|discriminate].
  destruct (name_to_enum (text c)) as [d|]; cbn [bind]; [|discriminate].
  intros H. injection H as <-. exists d. reflexivity.
Qed.

Lemma get_bbox_ok_inv (Image : Type) (w : World Image) (p : string) (l : list Z) :
  get_bbox_from_xml w p = Ok l ->
  exists x0 x1 y0 y1,
    l = [x0; x1; y0; y1] /\ 0 <= x0 /\ 0 <= x1 /\ 0 <= y0 /\ 0 <= y1.
Proof.
  unfold get_bbox_from_xml. destruct (ET_parse w p) as [xml|]; cbn [bind]; [|discriminate].
  rewrite get_bbox_loop_root. destruct (bndboxes xml) as [|b bs]; [discriminate|].
  apply extract_bb_ok_inv.
Qed.

(** X5: on a file that parses, [get_bbox_from_xml] returns what [extract_bb]
    gives (box or exception) on the first [bndbox] child of an [object] child
    of the root, in document order; it raises [ValueError] "no bounding box in
    xml" exactly when no [object] child has a [bndbox] child, so a [bndbox]
    placed anywhere else is not seen. *)
Theorem get_bbox_from_xml_cases (Image : Type) (w : World Image) (p : string)
  (xml : element) :
  ET_parse w p = Ok xml ->
  get_bbox_from_xml w p =
  match bndboxes xml with
  | [] => Raise (ValueError "no bounding box in xml")
  | b :: _ => extract_bb b
  end.
Proof.
  intros P. unfold get_bbox_from_xml. rewrite P. cbn [bind].
  apply get_bbox_loop_root.
Qed.

End AnyInterpreter.

Section TestInterpreter.

#[local] Existing Instance Demo.reader.

Lemma get_bbox_from_xml_cases_witness :
  get_bbox_from_xml (Demo.world "train" [] [] Demo.two_objects) "a.xml" = Ok [1; 2; 3; 4].
Proof.
  rewrite (get_bbox_from_xml_cases unit _ "a.xml" Demo.two_objects); reflexivity.
Defined.

End TestInterpreter.

Section AnyInterpreter.

Context `{interp : Interpreter}.

Lemma f32_of_f64_not_negative (x : spec_float) :
  not_negative x -> not_negative (f32_of_f64 x).
Proof.
  destruct x as [s | s | | s m e]; cbn [f32_of_f64]; try exact (fun H => H).
  destruct s; cbn [not_negative]; [intros []|intros _].
  unfold binary_round. destruct (shl_align _ _ _) as [mz ez].
  apply binary_round_aux_not_negative.
Qed.

(** X6: every record [load_label] returns has a [boxes] tensor of shape (1, 4)
    with four entries, none of them negative, and a [labels] tensor of shape
    (1,) whose one entry is the code of a category. *)
Theorem load_label_result_shape (Image : Type) (w : World Image) (p : string)
  (t : target) :
  load_label w p = Ok t ->
  t_shape (boxes t) = [1%nat; 4%nat]
  /\ List.length (t_data (boxes t)) = 4%nat
  /\ Forall not_negative (t_data (boxes t))
  /\ t_shape (labels t) = [1%nat]
  /\ exists c, t_data (labels t) = [value c].
Proof.
  unfold load_label.
  destruct (get_bbox_from_xml w p) as [l|] eqn:B; cbn [bind]; [|discriminate].
  destruct (get_bbox_ok_inv _ _ _ _ B) as (x0 & x1 & y0 & y1 & -> & H0 & H1 & H2 & H3).
  unfold assign_row0. cbn [zeros shape mapM].
  destruct (f64_of_int x0) as [v0|] eqn:E0; cbn [bind]; [|discriminate].
  destruct (f64_of_int x1) as [v1|] eqn:E1; cbn [bind]; [|discriminate].
  destruct (f64_of_int y0) as [v2|] eqn:E2; cbn [bind]; [|discriminate].
  destruct (f64_of_int y1) as [v3|] eqn:E3; cbn [bind]; [|discriminate].
  change (Nat.eqb (List.length [v0; v1; v2; v3]) 4) with true. cbn iota.
  destruct (get_class_from_xml w p) as [z|] eqn:C; cbn [bind]; [|discriminate].
  destruct (get_class_ok_inv _ _ _ _ C) as [c ->].
  unfold assign_item0. cbn [zeros shape].
  pose proof (label_entry_exact c) as L.
  destruct (f64_of_int (value c)) as [v|]; cbn [bind] in L |- *; [|discriminate].
  injection L as L. intros H. injection H as <-.
  cbn [boxes labels tensor_float tensor_long t_shape t_data shape data].
  cbn [repeat fold_right Nat.mul skipn app map tl List.length].
  repeat split.
  - repeat apply Forall_cons; try apply Forall_nil;
      apply f32_of_f64_not_negative;
      (eapply f64_of_int_not_negative; [|eassumption]); assumption.
  - exists c. rewrite L. reflexivity.
Qed.

(** ** More on retrieval *)

Lemma getitem_negative {A : Type} (l : list A) (i : Z) :
  - Z.of_nat (List.length l) <= i < 0 ->
  getitem l i = getitem l (i + Z.of_nat (List.length l)).
Proof.
  intros H. unfold getitem.
  destruct (i <? 0) eqn:E1; [|apply Z.ltb_ge in E1; lia].
  destruct (i + Z.of_nat (List.length l) <? 0) eqn:E2; [apply Z.ltb_lt in E2; lia|].
  reflexivity.
Qed.

Lemma getitem_out_of_range {A : Type} (l : list A) (i : Z) :
  Z.of_nat (List.length l) <= i \/ i < - Z.of_nat (List.length l) ->
  getitem l i = Raise IndexError.
Proof.
  intros H. unfold getitem.
  destruct (i <? 0) eqn:E1.
  - apply Z.ltb_lt in E1.
    destruct ((0 <=? i + Z.of_nat (List.length l))
              && (i + Z.of_nat (List.length l) <? Z.of_nat (List.length l))) eqn:E2;
      [|reflexivity].
    apply andb_prop in E2. destruct E2 as [E2 _]. apply Z.leb_le in E2. lia.
  - apply Z.ltb_ge in E1.
    destruct ((0 <=? i) && (i <? Z.of_nat (List.length l))) eqn:E2; [|reflexivity].
    apply andb_prop in E2. destruct E2 as [_ E2]. apply Z.ltb_lt in E2. lia.
Qed.

(** X7: a negative index counts from the end, as for a Python list: on an
    accessor with as many image paths as label paths, retrieval at [i] with
    [-n <= i < 0] is retrieval at [i + n], where [n] is the number of paths. *)
Theorem getitem_negative_index_counts_from_end (Image : Type) (w : World Image)
  (self : RobotFashion Image) (i : Z) :
  List.length (image_paths self) = List.length (label_paths self) ->
  - Z.of_nat (List.length (image_paths self)) <= i < 0 ->
  __getitem__ w self i = __getitem__ w self (i + Z.of_nat (List.length (image_paths self))).
Proof.
  intros L H. unfold __getitem__.
  rewrite (getitem_negative (image_paths self) i H).
  rewrite L in H. rewrite (getitem_negative (label_paths self) i H), L. reflexivity.
Qed.

End AnyInterpreter.

Section TestInterpreter.

#[local] Existing Instance Demo.reader.

Lemma getitem_negative_index_counts_from_end_witness :
  __getitem__ Demo.scenario (Demo.accessor Demo.scenario "train" (PyInt 1)) (-1)
  = __getitem__ Demo.scenario (Demo.accessor Demo.scenario "train" (PyInt 1)) 1.
Proof.
  apply (getitem_negative_index_counts_from_end unit Demo.scenario
           (Demo.accessor Demo.scenario "train" (PyInt 1)) (-1)).
  - reflexivity.
  - vm_compute. split; [discriminate | reflexivity].
Defined.

End TestInterpreter.

Section AnyInterpreter.

Context `{interp : Interpreter}.

(** X8: retrieval at an index outside [-n, n), where [n] is the number of
    image paths, raises [IndexError] before any file is opened: the outcome
    does not depend on the files. *)
Theorem getitem_out_of_range_raises_IndexError (Image : Type) (w : World Image)
  (self : RobotFashion Image) (i : Z) :
  Z.of_nat (List.length (image_paths self)) <= i
  \/ i < - Z.of_nat (List.length (image_paths self)) ->
  __getitem__ w self i = Raise IndexError.
Proof.
  intros H. unfold __getitem__. rewrite (getitem_out_of_range _ i H). reflexivity.
Qed.

End AnyInterpreter.

Section TestInterpreter.

#[local] Existing Instance Demo.reader.

Lemma getitem_out_of_range_raises_IndexError_witness :
  __getitem__ Demo.scenario (Demo.accessor Demo.scenario "train" (PyInt 1)) 2
  = Raise IndexError
  /\ __getitem__ Demo.scenario (Demo.accessor Demo.scenario "train" (PyInt 1)) (-3)
     = Raise IndexError.
Proof.
  split.
  - apply (getitem_out_of_range_raises_IndexError unit Demo.scenario
             (Demo.accessor Demo.scenario "train" (PyInt 1)) 2).
    left. vm_compute. discriminate.
  - apply (getitem_out_of_range_raises_IndexError unit Demo.scenario
             (Demo.accessor Demo.scenario "train" (PyInt 1)) (-3)).
    right. vm_compute. reflexivity.
Defined.

End TestInterpreter.

Section AnyInterpreter.

Context `{interp : Interpreter}.

(** ** More on the length *)

Lemma len_le_count (Image : Type) (self : RobotFashion Image) (len : Z) :
  ratio_ok (subset_ratio self) = true ->
  valid_ratio (subset_ratio self) = true ->
  Z.of_nat (List.length (image_paths self)) < 2 ^ 53 ->
  __len__ self = Ok len ->
  0 <= len <= Z.of_nat (List.length (image_paths self)).
Proof.
  intros Hr Hv Hn H. split; [exact (len_nonneg _ self len Hr H)|].
  revert H. unfold __len__.
  pose proof (Nat2Z.is_nonneg (List.length (image_paths self))) as N.
  remember (Z.of_nat (List.length (image_paths self))) as n eqn:En. clear En.
  destruct (subset_ratio self) as [z | x].
  - apply ratio_ok_int in Hr. subst z. cbn [num_mul_int bind int_of_num].
    intros H. injection H as <-. destruct n; lia.
  - pose proof (ratio_ok_le_one x Hr) as Hle.
    pose proof (ratio_ok_not_negative x Hr) as Hnn.
    cbn [valid_ratio] in Hv.
    destruct x as [s | s | | s m e].
    + destruct s; discriminate Hr.
    + destruct s; discriminate Hr.
    + cbn [num_mul_int]. destruct (f64_of_int n); cbn; discriminate.
    + destruct s; [destruct Hnn|].
      destruct n as [|p|p]; try lia.
      * cbn. intros H. injection H as <-. lia.
      * apply (mul_int_le m p e len Hv Hle Hn).
Qed.

(** X9: for an accepted subset ratio (an int, or a float in canonical form)
    and fewer than 2^53 image paths, a length that [__len__] returns lies
    between 0 and the number of image paths: the rounding of the float
    product never takes it above the count. *)
Theorem len_is_between_zero_and_count (Image : Type) (self : RobotFashion Image)
  (len : Z) :
  ratio_ok (subset_ratio self) = true ->
  valid_ratio (subset_ratio self) = true ->
  Z.of_nat (List.length (image_paths self)) < 2 ^ 53 ->
  __len__ self = Ok len ->
  0 <= len <= Z.of_nat (List.length (image_paths self)).
Proof. apply len_le_count. Qed.

End AnyInterpreter.

Section TestInterpreter.

#[local] Existing Instance Demo.reader.

Lemma len_is_between_zero_and_count_witness :
  __len__ (Demo.accessor
             (Demo.world "train" Demo.ten Demo.ten
                (Demo.annotation "shorts" "10" "50" "20" "60"))
             "train" (PyFloat Demo.f0_7)) = Ok 7
  /\ 0 <= 7 <= 10.
Proof.
  split; [reflexivity|].
  apply (len_is_between_zero_and_count unit
           (Demo.accessor
              (Demo.world "train" Demo.ten Demo.ten
                 (Demo.annotation "shorts" "10" "50" "20" "60"))
              "train" (PyFloat Demo.f0_7)) 7); reflexivity.
Defined.

End TestInterpreter.

Section AnyInterpreter.

Context `{interp : Interpreter}.

Lemma valid64_canonical (s : bool) (m : positive) (e : Z) :
  valid_binary prec64 emax64 (S754_finite s m e) = true ->
  e = Z.max (Zdigits2 (Zpos m) + e - 53) (-1074).
Proof.
  unfold valid_binary, bounded, canonical_mantissa, fexp, emin, prec64, emax64.
  intros H. apply andb_prop in H. destruct H as [H _]. apply Z.eqb_eq in H.
  cbn [Zdigits2]. lia.
Qed.

Lemma gt_one64_value (m : positive) (e : Z) :
  valid_binary prec64 emax64 (S754_finite false m e) = true ->
  SFltb one64 (S754_finite false m e) = true ->
  (1 < SF2Q (S754_finite false m e))%Q.
Proof.
  intros Hv H. pose proof (valid64_canonical _ _ _ Hv) as Hc.
  unfold SFltb, SFcompare, one64 in H.
  destruct (Z.compare_spec (-52) e) as [E|E|E]; [| |discriminate H].
  - subst e. rewrite Pos.compare_cont_spec in H. cbn [Pos.switch_Eq] in H.
    destruct (Pos.compare_spec (2 ^ 52) m) as [C|C|C]; try discriminate H.
    unfold SF2Q, Qlt. cbn [cond_Zopp Qnum Qden]. lia.
  - assert (D : Zdigits2 (Zpos m) = 53) by lia.
    assert (Hm : 2 ^ 52 <= Zpos m).
    { destruct (Z_lt_le_dec (Zpos m) (2 ^ 52)) as [L|L]; [|exact L].
      apply (Zdigits2_bound m 52) in L; lia. }
    unfold SF2Q. destruct e as [|k|k].
    + unfold Qlt. cbn [cond_Zopp Qnum Qden inject_Z]. lia.
    + unfold Qlt. cbn [cond_Zopp Qnum Qden inject_Z].
      assert (0 < 2 ^ Zpos k) by (apply Z.pow_pos_nonneg; lia). nia.
    + unfold Qlt. cbn [cond_Zopp Qnum Qden]. rewrite Pos2Z.inj_pow.
      assert (2 ^ Zpos k <= 2 ^ 51) by (apply Z.pow_le_mono_r; lia). lia.
Qed.

Lemma ratio_ok_float_iff (s : bool) (m : positive) (e : Z) :
  valid_binary prec64 emax64 (S754_finite s m e) = true ->
  ratio_ok (PyFloat (S754_finite s m e)) = true
  <-> (0 < SF2Q (S754_finite s m e) /\ SF2Q (S754_finite s m e) <= 1)%Q.
Proof.
  intros Hv. destruct s.
  - split; [discriminate|]. intros [H _]. exfalso. revert H.
    unfold SF2Q, Qlt. destruct e as [|k|k]; cbn [cond_Zopp Qnum Qden inject_Z]; try lia.
    all: assert (0 < 2 ^ Zpos k) by (apply Z.pow_pos_nonneg; lia); nia.
  - assert (P : (0 < SF2Q (S754_finite false m e))%Q).
    { unfold SF2Q, Qlt. destruct e as [|k|k]; cbn [cond_Zopp Qnum Qden inject_Z];
        try lia.
      all: assert (0 < 2 ^ Zpos k) by (apply Z.pow_pos_nonneg; lia); nia. }
    destruct (SFltb one64 (S754_finite false m e)) eqn:L.
    + split.
      * intros H. apply ratio_ok_le_one in H. congruence.
      * intros [_ H]. pose proof (gt_one64_value m e Hv L) as G.
        exfalso. apply (Qlt_not_le _ _ G H).
    + split; [|intros _; unfold ratio_ok; cbn [num_le_zero num_gt_one]; rewrite L;
                reflexivity].
      intros _. split; [exact P|].
      destruct (le_one64_mantissa m e Hv L) as [He Hm].
      unfold SF2Q. destruct e as [|k|k]; try lia.
      unfold Qle. cbn [cond_Zopp Qnum Qden]. rewrite Pos2Z.inj_pow.
      change (- Z.neg k) with (Zpos k) in Hm. lia.
Qed.

(** X10: the range check of the constructor, [subset_ratio <= 0 or
    subset_ratio > 1], passes an int exactly when it is 1, passes a finite
    non-zero float exactly when its value is in (0, 1], and rejects the zeros
    and the infinities of either sign. *)
Theorem ratio_check_accepts_exactly_the_unit_interval :
  (forall z, ratio_ok (PyInt z) = true <-> z = 1)
  /\ (forall s m e,
        valid_binary prec64 emax64 (S754_finite s m e) = true ->
        ratio_ok (PyFloat (S754_finite s m e)) = true
        <-> (0 < SF2Q (S754_finite s m e) /\ SF2Q (S754_finite s m e) <= 1)%Q)
  /\ (forall s, ratio_ok (PyFloat (S754_zero s)) = false)
  /\ (forall s, ratio_ok (PyFloat (S754_infinity s)) = false).
Proof.
  split; [|split; [|split]].
  - intros z. split; [apply ratio_ok_int | intros ->; reflexivity].
  - apply ratio_ok_float_iff.
  - intros []; reflexivity.
  - intros []; reflexivity.
Qed.

(** ** More on the listing *)

Lemma filter_none {A : Type} (f : A -> bool) (l : list A) :
  (forall x, In x l -> f x = false) -> filter f l = [].
Proof.
  induction l as [|a l IH]; intros H; [reflexivity|].
  cbn [filter]. rewrite (H a (or_introl eq_refl)). apply IH.
  intros x Hx. apply H. right. exact Hx.
Qed.

Lemma sorted_names_in (Image : Type) (w : World Image) (dir : string)
  (names : list string) (f : string) :
  In f (sorted_names w dir names) <-> In f names /\ isfile w (os_path_join dir f) = true.
Proof.
  unfold sorted_names. rewrite filter_In.
  destruct (sorted_spec names) as [_ P]. split; intros [H1 H2]; split; try exact H2.
  - apply (Permutation_in _ (Permutation_sym P) H1).
  - apply (Permutation_in _ P H1).
Qed.

(** X11: the two lists [load_data] returns have the same length, and every
    path in them is a file: the join of the images (respectively annotations)
    folder with a name that [os.listdir] gave for that folder. Subfolders are
    left out. *)
Theorem load_data_returns_listed_files (Image : Type) (w : World Image)
  (data_dir : string) (ips lps : list string) :
  load_data w data_dir = Ok (ips, lps) ->
  List.length ips = List.length lps
  /\ (forall p, In p ips ->
        isfile w p = true
        /\ exists names f,
             listdir w (os_path_join data_dir "images") = Ok names
             /\ In f names /\ p = os_path_join (os_path_join data_dir "images") f)
  /\ (forall p, In p lps ->
        isfile w p = true
        /\ exists names f,
             listdir w (os_path_join data_dir "annotations") = Ok names
             /\ In f names /\ p = os_path_join (os_path_join data_dir "annotations") f).
Proof.
  intros H. destruct (load_data_ok _ _ _ _ _ H) as (inames & anames & Li & La & -> & -> & L).
  split; [exact L|]. split; intros p Hp; apply in_map_iff in Hp;
    destruct Hp as (f & <- & Hf); apply sorted_names_in in Hf; destruct Hf as [Hf Hfile];
    (split; [exact Hfile|]).
  - exists inames, f. auto.
  - exists anames, f. auto.
Qed.

End AnyInterpreter.

Section TestInterpreter.

#[local] Existing Instance Demo.reader.

Lemma load_data_returns_listed_files_witness :
  load_data Demo.scenario "data/robotfashion_data_folder/train"
  = Ok (["data/robotfashion_data_folder/train/images/a.jpg";
         "data/robotfashion_data_folder/train/images/b.jpg"],
        ["data/robotfashion_data_folder/train/annotations/a.xml";
         "data/robotfashion_data_folder/train/annotations/b.xml"])
  /\ List.length ["data/robotfashion_data_folder/train/images/a.jpg";
                  "data/robotfashion_data_folder/train/images/b.jpg"]
     = List.length ["data/robotfashion_data_folder/train/annotations/a.xml";
                    "data/robotfashion_data_folder/train/annotations/b.xml"].
Proof.
  split; [reflexivity|].
  apply (load_data_returns_listed_files unit Demo.scenario
           "data/robotfashion_data_folder/train" _ _ eq_refl).
Defined.

End TestInterpreter.

Section AnyInterpreter.

Context `{interp : Interpreter}.

(** ** More on construction *)

Section Validation.

Context {Image : Type}.
Variable has_correct_folder_structure :
  World Image -> string -> list (string * string) -> string -> bool.
Variable maybe_download_and_unzip_data :
  World Image -> string -> list (string * string * string * Z) -> result (World Image).
Variable expanduser : string -> string.
Variable str_of_num : pynum -> string.

Local Abbreviation init :=
  (__init__ has_correct_folder_structure maybe_download_and_unzip_data
     expanduser str_of_num).
Local Abbreviation ensure :=
  (ensure_data has_correct_folder_structure maybe_download_and_unzip_data).
Local Abbreviation checked w wp :=
  (has_correct_folder_structure w (_get_root_data_folder (expanduser wp)) get_folders
     get_dataset_name).

(** X12: when the integrity check fails and [download_if_missing] is false,
    the constructor raises the "cannot find (valid) robotfashion data" error
    whatever the mode and the subset ratio are: the data check comes before
    the validation of the arguments. *)
Theorem init_missing_data_without_download (w : World Image) (wp md : string)
  (ratio : pynum) (tr : option (Image -> result Image)) :
  checked w wp = false ->
  init w wp md false ratio tr
  = Raise (ValueError
      "cannot find (valid) robotfashion data. Set download_if_missing=True to download dataset").
Proof.
  intros H. unfold __init__, ensure_data. rewrite H. reflexivity.
Qed.

(** X13: when the integrity check fails and [download_if_missing] is true,
    the constructor downloads and checks again: an exception of the download
    is passed on, a second failed check raises [Exception] "Downloading and/or
    unzipping data failed", and after a successful second check construction
    goes on exactly as on a disk that held the data from the start. *)
Theorem init_downloads_then_checks_again (w : World Image) (wp md : string)
  (ratio : pynum) (tr : option (Image -> result Image)) :
  checked w wp = false ->
  init w wp md true ratio tr =
  match maybe_download_and_unzip_data w (_get_root_data_folder (expanduser wp))
          get_download_links with
  | Raise e => Raise e
  | Ok w' =>
      if checked w' wp then init w' wp md true ratio tr
      else Raise (Exception "Downloading and/or unzipping data failed")
  end.
Proof.
  intros H. unfold __init__ at 1. unfold ensure_data. rewrite H. cbn [negb].
  destruct (maybe_download_and_unzip_data w _ _) as [w'|e]; cbn [bind]; [|reflexivity].
  destruct (checked w' wp) eqn:H'; cbn [negb bind]; [|reflexivity].
  unfold __init__, ensure_data. rewrite H'. reflexivity.
Qed.

(** X14: once the data is in place, a mode outside [modes] is refused with
    the bad-mode [ValueError] whatever the subset ratio is, and the mode
    "test" never yields an accessor: it raises the subset-ratio [ValueError]
    for a ratio out of range and [NotImplementedError] "labels of test data
    are not published" otherwise. *)
Theorem init_checks_mode_before_ratio (w w1 : World Image) (wp md : string)
  (download : bool) (ratio : pynum) (tr : option (Image -> result Image)) :
  ensure w (expanduser wp) download = Ok w1 ->
  (str_in md modes = false ->
   init w wp md download ratio tr
   = Raise (ValueError ("mode " ++ md ++ " should be one of ['train', 'val', 'test']")))
  /\ (md = "test" ->
      init w wp md download ratio tr
      = if ratio_ok ratio
        then Raise (NotImplementedError "labels of test data are not published")
        else Raise (ValueError ("subset ratio " ++ str_of_num ratio
                                ++ " needs to be in (0, 1]"))).
Proof.
  intros E. split.
  - intros M. unfold __init__. rewrite E. cbn [bind]. rewrite M. reflexivity.
  - intros ->. unfold __init__. rewrite E. cbn [bind]. unfold ratio_ok.
    change (negb (str_in "test" modes)) with false. cbn iota.
    destruct (num_le_zero ratio || num_gt_one ratio); reflexivity.
Qed.

(** X15: the constructor returns an accessor exactly when the data check
    succeeds, the ratio passes the range check, the mode is "train" or "val"
    and [load_data] succeeds on the folder of that split ("train",
    respectively "validation"); the accessor then holds the expanded root,
    the transform, the ratio, the mode and the two lists of [load_data]. *)
Theorem init_succeeds_iff (w w1 : World Image) (wp md : string) (download : bool)
  (ratio : pynum) (tr : option (Image -> result Image)) (self : RobotFashion Image) :
  init w wp md download ratio tr = Ok (w1, self)
  <-> ensure w (expanduser wp) download = Ok w1
      /\ ratio_ok ratio = true
      /\ (exists split,
            ((md = "train" /\ split = "train") \/ (md = "val" /\ split = "validation"))
            /\ load_data w1 (split_dir (expanduser wp) split)
               = Ok (image_paths self, label_paths self))
      /\ root self = expanduser wp /\ transform self = tr
      /\ subset_ratio self = ratio /\ mode self = md.
Proof.
  split.
  - intros H.
    assert (E : ensure w (expanduser wp) download = Ok w1
                /\ root self = expanduser wp /\ mode self = md).
    { unfold __init__ in H.
      destruct (ensure w (expanduser wp) download) as [w'|]; cbn [bind] in H;
        [|discriminate H].
      destruct (negb (str_in md modes)); [discriminate H|].
      destruct (num_le_zero ratio || num_gt_one ratio); [discriminate H|].
      match type of H with bind ?c _ = _ => destruct c as [paths|] end; cbn [bind] in H;
        [|discriminate H].
      injection H as <- <-. repeat split. }
    destruct E as (E & R & M).
    destruct (init_ok_inv _ _ _ _ _ _ _ _ _ _ _ _ H) as (Hr & Hs & Ht & Hl).
    repeat split; assumption.
  - intros (E & Hr & (split & Hm & Hl) & R & T & S & M).
    rewrite (init_reads_split _ _ _ _ w w1 wp md split download ratio tr E Hm).
    rewrite Hr, Hl. cbn [bind fst snd].
    destruct self as [r t s m ips lps]. cbn in R, T, S, M. subst. reflexivity.
Qed.

(** X16: on a constructed accessor with fewer than 2^53 pairs and a ratio in
    canonical form, every index [0 <= i < len(self)] is in range of both path
    lists: retrieval at [i] never raises [IndexError] on them, it is the load
    of the i-th image and of the i-th annotation followed by the transform. *)
Theorem every_reported_index_is_in_range (w w1 : World Image) (wp md : string)
  (download : bool) (ratio : pynum) (tr : option (Image -> result Image))
  (self : RobotFashion Image) (len i : Z) :
  init w wp md download ratio tr = Ok (w1, self) ->
  valid_ratio ratio = true ->
  Z.of_nat (List.length (image_paths self)) < 2 ^ 53 ->
  __len__ self = Ok len ->
  0 <= i < len ->
  exists ip lp,
    nth_error (image_paths self) (Z.to_nat i) = Some ip
    /\ nth_error (label_paths self) (Z.to_nat i) = Some lp
    /\ __getitem__ w1 self i =
       (image <- load_image w1 ip ;;
        label <- load_label w1 lp ;;
        image' <- apply_transform tr image ;;
        Ok (image', label)).
Proof.
  intros H Hv Hn Hlen Hi.
  destruct (init_ok_inv _ _ _ _ _ _ _ _ _ _ _ _ H) as (Hr & Hs & Ht & split & _ & Hl).
  destruct (load_data_ok _ _ _ _ _ Hl) as (_ & _ & _ & _ & _ & _ & L).
  rewrite <- Hs in Hr, Hv.
  destruct (len_le_count _ self len Hr Hv Hn Hlen) as [_ Hle].
  destruct (getitem_in_range (image_paths self) i) as (ip & Ni & Gi); [lia|].
  destruct (getitem_in_range (label_paths self) i) as (lp & Nl & Gl); [lia|].
  exists ip, lp. split; [exact Ni|]. split; [exact Nl|].
  unfold __getitem__. rewrite Gi, Gl, Ht. cbn [bind].
  destruct (load_image w1 ip); reflexivity.
Qed.

(** X17: a NaN subset ratio passes the range check of the constructor (both
    comparisons are false), so construction succeeds whenever it would for a
    ratio in range; the accessor built has no length: [__len__] raises. *)
Theorem nan_ratio_is_accepted_and_has_no_length (w w1 : World Image)
  (wp md split : string) (download : bool) (tr : option (Image -> result Image))
  (ips lps : list string) :
  ensure w (expanduser wp) download = Ok w1 ->
  (md = "train" /\ split = "train") \/ (md = "val" /\ split = "validation") ->
  load_data w1 (split_dir (expanduser wp) split) = Ok (ips, lps) ->
  exists self,
    init w wp md download (PyFloat S754_nan) tr = Ok (w1, self)
    /\ image_paths self = ips /\ label_paths self = lps
    /\ is_ok (__len__ self) = false.
Proof.
  intros E M L. eexists. split.
  - rewrite (init_reads_split _ _ _ _ w w1 wp md split download _ tr E M).
    change (ratio_ok (PyFloat S754_nan)) with true. cbn iota. rewrite L.
    cbn [bind fst snd]. reflexivity.
  - cbn [image_paths label_paths]. repeat split.
    unfold __len__. cbn [subset_ratio image_paths num_mul_int].
    destruct (f64_of_int (Z.of_nat (List.length ips))) as [y|]; [|reflexivity].
    cbn [bind int_of_num]. destruct y; reflexivity.
Qed.

(** X18: a split whose two folders list no file (they are empty, or hold
    subfolders only) gives an accessor with no paths: its length is 0 for
    every accepted ratio other than NaN, and retrieval raises [IndexError] at
    every index. *)
Theorem split_without_files_is_empty (w w1 : World Image) (wp md split : string)
  (download : bool) (ratio : pynum) (tr : option (Image -> result Image))
  (inames anames : list string) :
  let image_dir := os_path_join (split_dir (expanduser wp) split) "images" in
  let annos_dir := os_path_join (split_dir (expanduser wp) split) "annotations" in
  ensure w (expanduser wp) download = Ok w1 ->
  (md = "train" /\ split = "train") \/ (md = "val" /\ split = "validation") ->
  ratio_ok ratio = true ->
  listdir w1 image_dir = Ok inames ->
  listdir w1 annos_dir = Ok anames ->
  (forall f, In f inames -> isfile w1 (os_path_join image_dir f) = false) ->
  (forall f, In f anames -> isfile w1 (os_path_join annos_dir f) = false) ->
  exists self,
    init w wp md download ratio tr = Ok (w1, self)
    /\ image_paths self = [] /\ label_paths self = []
    /\ (ratio <> PyFloat S754_nan -> __len__ self = Ok 0)
    /\ forall i, __getitem__ w1 self i = Raise IndexError.
Proof.
  intros image_dir annos_dir E M Hr Li La Fi Fa.
  assert (Si : sorted_names w1 image_dir inames = []).
  { unfold sorted_names. apply filter_none. intros f Hf. apply Fi.
    destruct (sorted_spec inames) as [_ P]. apply (Permutation_in _ (Permutation_sym P) Hf). }
  assert (Sa : sorted_names w1 annos_dir anames = []).
  { unfold sorted_names. apply filter_none. intros f Hf. apply Fa.
    destruct (sorted_spec anames) as [_ P]. apply (Permutation_in _ (Permutation_sym P) Hf). }
  pose proof (load_data_listing _ w1 (split_dir (expanduser wp) split) inames anames Li La)
    as L.
  fold image_dir annos_dir in L. rewrite Si, Sa in L. cbn in L.
  eexists. split.
  - rewrite (init_reads_split _ _ _ _ w w1 wp md split download ratio tr E M).
    rewrite Hr, L. cbn [bind fst snd]. reflexivity.
  - cbn [image_paths label_paths]. repeat split.
    + intros N. unfold __len__. cbn [subset_ratio image_paths List.length Z.of_nat].
      destruct ratio as [z | x].
      * apply ratio_ok_int in Hr. subst z. reflexivity.
      * pose proof (ratio_ok_not_negative x Hr) as Hnn.
        destruct x as [s | s | | s m e]; try (destruct s; discriminate Hr);
          [congruence|].
        destruct s; [destruct Hnn|]. reflexivity.
    + intros i. unfold __getitem__. cbn [image_paths]. rewrite getitem_nil. reflexivity.
Qed.

End Validation.

End AnyInterpreter.

Section TestInterpreter.

#[local] Existing Instance Demo.reader.

Lemma load_label_result_shape_witness :
  exists t,
    load_label Demo.scenario "a.xml" = Ok t
    /\ t_shape (boxes t) = [1%nat; 4%nat]
    /\ List.length (t_data (boxes t)) = 4%nat
    /\ Forall not_negative (t_data (boxes t))
    /\ t_shape (labels t) = [1%nat]
    /\ exists c, t_data (labels t) = [value c].
Proof.
  eexists. split; [reflexivity|].
  apply (load_label_result_shape unit Demo.scenario "a.xml"). reflexivity.
Defined.

Lemma init_missing_data_without_download_witness :
  __init__ Demo.folders_listed Demo.no_download (fun s => s) Demo.str_of_num
    Demo.bare "data" "train" false (PyInt 1) None
  = Raise (ValueError
      "cannot find (valid) robotfashion data. Set download_if_missing=True to download dataset").
Proof.
  apply (init_missing_data_without_download Demo.folders_listed Demo.no_download
           (fun s => s) Demo.str_of_num Demo.bare "data" "train" (PyInt 1) None).
  reflexivity.
Defined.

Lemma init_downloads_then_checks_again_witness :
  __init__ Demo.folders_listed Demo.download_scenario (fun s => s) Demo.str_of_num
    Demo.bare "data" "train" true (PyInt 1) None
  = __init__ Demo.folders_listed Demo.download_scenario (fun s => s) Demo.str_of_num
      Demo.scenario "data" "train" true (PyInt 1) None
  /\ __init__ Demo.folders_listed Demo.no_download (fun s => s) Demo.str_of_num
       Demo.bare "data" "train" true (PyInt 1) None
     = Raise (Exception "Downloading and/or unzipping data failed").
Proof.
  split.
  - rewrite (init_downloads_then_checks_again Demo.folders_listed Demo.download_scenario
               (fun s => s) Demo.str_of_num Demo.bare "data" "train" (PyInt 1) None
               eq_refl).
    reflexivity.
  - rewrite (init_downloads_then_checks_again Demo.folders_listed Demo.no_download
               (fun s => s) Demo.str_of_num Demo.bare "data" "train" (PyInt 1) None
               eq_refl).
    reflexivity.
Defined.

Lemma init_checks_mode_before_ratio_witness :
  Demo.init Demo.scenario "training" (PyInt 5)
  = Raise (ValueError "mode training should be one of ['train', 'val', 'test']")
  /\ Demo.init Demo.scenario "test" (PyInt 1)
     = Raise (NotImplementedError "labels of test data are not published").
Proof.
  split.
  - destruct (init_checks_mode_before_ratio Demo.folders_ok Demo.no_download
                (fun s => s) Demo.str_of_num Demo.scenario Demo.scenario "data"
                "training" false (PyInt 5) None eq_refl) as [H _].
    exact (H eq_refl).
  - destruct (init_checks_mode_before_ratio Demo.folders_ok Demo.no_download
                (fun s => s) Demo.str_of_num Demo.scenario Demo.scenario "data"
                "test" false (PyInt 1) None eq_refl) as [_ H].
    exact (H eq_refl).
Defined.

Lemma every_reported_index_is_in_range_witness :
  exists ip lp,
    nth_error (image_paths (Demo.accessor Demo.scenario "train" (PyInt 1))) 1 = Some ip
    /\ nth_error (label_paths (Demo.accessor Demo.scenario "train" (PyInt 1))) 1 = Some lp
    /\ __getitem__ Demo.scenario (Demo.accessor Demo.scenario "train" (PyInt 1)) 1 =
       (image <- load_image Demo.scenario ip ;;
        label <- load_label Demo.scenario lp ;;
        image' <- apply_transform None image ;;
        Ok (image', label)).
Proof.
  apply (every_reported_index_is_in_range Demo.folders_ok Demo.no_download
           (fun s => s) Demo.str_of_num Demo.scenario Demo.scenario "data" "train"
           false (PyInt 1) None (Demo.accessor Demo.scenario "train" (PyInt 1)) 2 1);
    try reflexivity.
  lia.
Defined.

Lemma nan_ratio_is_accepted_and_has_no_length_witness :
  exists self,
    Demo.init Demo.scenario "train" (PyFloat S754_nan) = Ok (Demo.scenario, self)
    /\ image_paths self = ["data/robotfashion_data_folder/train/images/a.jpg";
                           "data/robotfashion_data_folder/train/images/b.jpg"]
    /\ label_paths self = ["data/robotfashion_data_folder/train/annotations/a.xml";
                           "data/robotfashion_data_folder/train/annotations/b.xml"]
    /\ is_ok (__len__ self) = false.
Proof.
  apply (nan_ratio_is_accepted_and_has_no_length Demo.folders_ok Demo.no_download
           (fun s => s) Demo.str_of_num Demo.scenario Demo.scenario "data" "train"
           "train" false None).
  - reflexivity.
  - left. split; reflexivity.
  - reflexivity.
Defined.

Lemma split_without_files_is_empty_witness :
  exists self,
    Demo.init (Demo.world "train" [] [] Demo.two_objects) "train" (PyFloat half64)
    = Ok (Demo.world "train" [] [] Demo.two_objects, self)
    /\ image_paths self = [] /\ label_paths self = []
    /\ (PyFloat half64 <> PyFloat S754_nan -> __len__ self = Ok 0)
    /\ forall i, __getitem__ (Demo.world "train" [] [] Demo.two_objects) self i
                 = Raise IndexError.
Proof.
  apply (split_without_files_is_empty Demo.folders_ok Demo.no_download
           (fun s => s) Demo.str_of_num
           (Demo.world "train" [] [] Demo.two_objects)
           (Demo.world "train" [] [] Demo.two_objects)
           "data" "train" "train" false (PyFloat half64) None [] []).
  - reflexivity.
  - left. split; reflexivity.
  - reflexivity.
  - reflexivity.
  - reflexivity.
  - intros f [].
  - intros f [].
Defined.

End TestInterpreter.

Section AnyInterpreter.

Context `{interp : Interpreter}.

(** ** More on the tables *)

(** X19: the reverse table [name_to_df2_enum] is one-to-one onto the
    categories: every category, [long_sleeve_dress] included, is the value of
    exactly one key, so each of the thirteen codes can be returned by
    [get_class_from_xml] and for one class name only. *)
Theorem name_table_is_one_to_one_onto_categories (c : DF2) :
  exists s,
    name_to_enum (Some s) = Ok c
    /\ forall s', name_to_enum (Some s') = Ok c -> s' = s.
Proof.
  exists (match c with
          | long_sleeve_dress => "long_sleeve_dres"
          | _ => match enum_to_name c with Ok s => s | Raise _ => "" end
          end).
  destruct c; (split; [reflexivity|]); intros s';
    unfold name_to_enum; cbn [dict_get name_to_df2_enum];
    repeat match goal with
           | |- context [String.eqb ?k s'] =>
               destruct (String.eqb_spec k s') as [<-|_];
               [first [reflexivity | discriminate]|]
           end;
    discriminate.
Qed.

(** ** What [load_label] never raises *)

Lemma int_not_no_name (x : option string) (e : exn) :
  int x = Raise e -> e <> ValueError "no name in xml".
Proof.
  unfold int. destruct x as [s|]; [|intros H; injection H as <-; discriminate].
  destruct (int_of_text s); [discriminate| |];
    intros H; injection H as <-; cbn [append]; discriminate.
Qed.

Lemma extract_bb_loop_not_no_name (cs : list element) :
  forall st e, extract_bb_loop cs st = Raise e -> e <> ValueError "no name in xml".
Proof.
  induction cs as [|c cs IH]; intros st e; cbn [extract_bb_loop]; [discriminate|].
  destruct (extract_bb_step st c) as [st'|e'] eqn:S; cbn [bind]; [apply IH|].
  intros H. injection H as <-. revert S. unfold extract_bb_step.
  repeat match goal with
         | |- context [if ?b then int (text c) else _] => destruct b
         end;
    repeat match goal with
           | |- context [int (text c)] =>
               let E := fresh "E" in
               destruct (int (text c)) eqn:E;
               [| cbn [bind]; intros H; injection H as <-; exact (int_not_no_name _ _ E)]
           end;
    cbn [bind]; discriminate.
Qed.

Lemma extract_bb_not_no_name (b : element) (e : exn) :
  extract_bb b = Raise e -> e <> ValueError "no name in xml".
Proof.
  unfold extract_bb.
  destruct (extract_bb_loop (children b) _) as [st|e'] eqn:L; cbn [bind].
  - destruct (_ || _); [|discriminate]. intros H. injection H as <-. discriminate.
  - intros H. injection H as <-. exact (extract_bb_loop_not_no_name _ _ _ L).
Qed.

Lemma f64_of_int_raises (z : Z) (e : exn) : f64_of_int z = Raise e -> e = OverflowError.
Proof.
  unfold f64_of_int. destruct (binary_normalize _ _ _ _ _); try discriminate.
  intros H. injection H as <-. reflexivity.
Qed.

(** X20: [load_label] reads the box before the class: on a file that parses
    it never raises the [ValueError] "no name in xml" of [get_class_from_xml],
    and a file without any [bndbox] under an [object] (in particular one
    without [object]) is reported as "no bounding box in xml". *)
Theorem load_label_never_reports_no_name (Image : Type) (w : World Image) (p : string)
  (xml : element) :
  ET_parse w p = Ok xml ->
  load_label w p <> Raise (ValueError "no name in xml")
  /\ (bndboxes xml = [] -> load_label w p = Raise (ValueError "no bounding box in xml")).
Proof.
  intros P. split.
  - unfold load_label, get_bbox_from_xml, get_class_from_xml. rewrite P. cbn [bind].
    rewrite get_bbox_loop_root, get_class_loop_root.
    destruct (bndboxes xml) as [|b bs] eqn:B; [discriminate|].
    destruct (extract_bb b) as [l|e] eqn:X; cbn [bind].
    + destruct (extract_bb_ok_inv _ _ X) as (x0 & x1 & y0 & y1 & -> & _).
      unfold assign_row0. cbn [zeros shape mapM].
      destruct (f64_of_int x0) as [v0|e0] eqn:E0; cbn [bind];
        [|apply f64_of_int_raises in E0; subst; discriminate].
      destruct (f64_of_int x1) as [v1|e1] eqn:E1; cbn [bind];
        [|apply f64_of_int_raises in E1; subst; discriminate].
      destruct (f64_of_int y0) as [v2|e2] eqn:E2; cbn [bind];
        [|apply f64_of_int_raises in E2; subst; discriminate].
      destruct (f64_of_int y1) as [v3|e3] eqn:E3; cbn [bind];
        [|apply f64_of_int_raises in E3; subst; discriminate].
      change (Nat.eqb (List.length [v0; v1; v2; v3]) 4) with true. cbn iota.
      destruct (objects xml) as [|o os] eqn:O.
      { rewrite (bndboxes_no_objects xml O) in B. discriminate B. }
      unfold class_of_object.
      destruct (children o) as [|c cs]; [rewrite getitem_nil; discriminate|].
      rewrite getitem_head. cbn [bind]. unfold name_to_enum.
      destruct (text c) as [s|]; [|discriminate].
      destruct (dict_get String.eqb name_to_df2_enum s) as [d|]; [|discriminate].
      cbn [bind]. unfold assign_item0. cbn [zeros shape].
      destruct (f64_of_int (value d)) as [v|e4] eqn:E4; cbn [bind];
        [discriminate | apply f64_of_int_raises in E4; subst; discriminate].
    + intros H. injection H as ->. exact (extract_bb_not_no_name _ _ X eq_refl).
  - intros B. unfold load_label, get_bbox_from_xml. rewrite P. cbn [bind].
    rewrite get_bbox_loop_root, B. reflexivity.
Qed.

End AnyInterpreter.

Section TestInterpreter.

#[local] Existing Instance Demo.reader.

Lemma load_label_never_reports_no_name_witness :
  load_label (Demo.world "train" [] [] (Element "annotation" None [])) "a.xml"
  = Raise (ValueError "no bounding box in xml").
Proof.
  destruct (load_label_never_reports_no_name unit
              (Demo.world "train" [] [] (Element "annotation" None [])) "a.xml"
              (Element "annotation" None []) eq_refl) as [_ H].
  exact (H eq_refl).
Defined.

End TestInterpreter.
